(** * Resilient product scraper: fetch client, field locator, record
      extractor and search orchestrator (amazon_scraper.py, api.py)

    A shallow embedding of the scraper's core and of the request handler
    built on it, followed by the properties of the specification.

    - Python [str] values are [string]s; a character is a code point below
      256, so the white space that [str.strip] removes is the set of such
      code points for which [str.isspace] holds.
    - The HTML tree and its CSS queries (BeautifulSoup) are an interface
      ([Dom]); module [Html] gives a small implementation of it.
    - The network, the clock and the random source are a [World] that is
      threaded through the effectful methods; what they did is read off a
      trace of events. *)

From Stdlib Require Import List String Ascii Bool Arith ZArith QArith Lia.
From Stdlib Require Import DecimalString.
Import ListNotations.
Close Scope Q_scope.
Open Scope string_scope.

(** ** Python strings *)

Module Py.

Definition str := string.

(** [str.isspace] on one code point below 256: TAB..CR, FS..US, SPACE,
    NEL and NBSP. *)
Definition isspace (c : ascii) : bool :=
  let n := nat_of_ascii c in
  ((9 <=? n) && (n <=? 13) || (28 <=? n) && (n <=? 32)
   || (n =? 133) || (n =? 160))%nat.

(** [bool(s)] for a string: the empty string is falsy. *)
Definition truthy (s : str) : bool :=
  match s with EmptyString => false | String _ _ => true end.

Fixpoint lstrip (s : str) : str :=
  match s with
  | EmptyString => EmptyString
  | String c s' => if isspace c then lstrip s' else s
  end.

(** [rstrip] walks to the end and drops the white space met on the way
    back. *)
Fixpoint rstrip (s : str) : str :=
  match s with
  | EmptyString => EmptyString
  | String c s' =>
      match rstrip s' with
      | EmptyString => if isspace c then EmptyString else String c EmptyString
      | r => String c r
      end
  end.

(** [s.strip()] *)
Definition strip (s : str) : str := rstrip (lstrip s).

(** [s.startswith(p)] *)
Fixpoint startswith (s p : str) : bool :=
  match p, s with
  | EmptyString, _ => true
  | String _ _, EmptyString => false
  | String b p', String a s' => Ascii.eqb a b && startswith s' p'
  end.

(** [s[n:]] *)
Fixpoint drop (n : nat) (s : str) : str :=
  match n, s with
  | S k, String _ s' => drop k s'
  | _, _ => s
  end.

(** [sub in s] *)
Fixpoint contains (s sub : str) : bool :=
  startswith s sub
  || match s with
     | EmptyString => false
     | String _ s' => contains s' sub
     end.

(** The scan of [s.replace(old, new)] for a non-empty [old]: [skip]
    counts the characters of a match that are still to be dropped. *)
Fixpoint replace_scan (old new : str) (skip : nat) (s : str) : str :=
  match s with
  | EmptyString => EmptyString
  | String c s' =>
      match skip with
      | S k => replace_scan old new k s'
      | O =>
          if startswith s old
          then new ++ replace_scan old new (String.length old - 1) s'
          else String c (replace_scan old new 0 s')
      end
  end.

(** With an empty [old], Python puts [new] before every character and at
    the end. *)
Fixpoint intersperse (new s : str) : str :=
  match s with
  | EmptyString => new
  | String c s' => new ++ String c (intersperse new s')
  end.

(** [s.replace(old, new)] *)
Definition replace (s old new : str) : str :=
  match old with
  | EmptyString => intersperse new s
  | String _ _ => replace_scan old new 0 s
  end.

End Py.

Import Py.

(** ** The document tree: what the scraper asks of BeautifulSoup *)

(** [Tag] is a parsed element (or the whole document), [Content] the body
    of an HTTP response.  [bool(tag)] is [True] for every tag, so a test
    [if element:] only asks whether a match was found. *)
Class Dom : Type := {
  Tag : Type;
  Content : Type;
  (** [BeautifulSoup(content, 'html.parser')] *)
  BeautifulSoup : Content -> Tag;
  (** [tag.select(selector)]: every match below [tag], in document order *)
  select : Tag -> str -> list Tag;
  (** [tag.get_text(strip=True)] *)
  get_text : Tag -> str;
  (** [tag.get(name)]: the attribute's value, [None] when it is absent *)
  get : Tag -> str -> option str
}.

(** [tag.select_one(selector)]: the first match, or [None] *)
Definition select_one `{Dom} (container : Tag) (selector : str) : option Tag :=
  hd_error (select container selector).

(** ** The world outside: transport, clock, random source *)

Section World.

Context `{Dom}.

(** [requests.Response], as far as the scraper reads it.  [bool(response)]
    is [response.ok], which holds for every response [make_request]
    returns (their status is 200). *)
Record Response : Type := {
  status_code : Z;
  content : Content
}.

(** What [session.get(url, timeout=30)] does: it returns a response or
    raises [requests.exceptions.RequestException] (timeout, refused
    connection, ...). *)
Inductive Reply : Type :=
| Returns (response : Response)
| RequestException.

Inductive Event : Type :=
| UpdateHeaders
| Sleep (min_delay max_delay : Q)
| Get (url : str).

(** The replies the transport will give, in order, and what has happened
    so far (oldest event first).  When the replies run out every further
    request fails with [RequestException]. *)
Record World : Type := {
  replies : list Reply;
  trace : list Event
}.

Definition M (A : Type) : Type := World -> A * World.

Definition ret {A} (a : A) : M A := fun w => (a, w).

Definition bind {A B} (c : M A) (k : A -> M B) : M B :=
  fun w => let (a, w') := c w in k a w'.

Definition emit (e : Event) : M unit :=
  fun w => (tt, {| replies := replies w; trace := trace w ++ [e] |}).

(** [self.session.get(url, timeout=30)] *)
Definition session_get (url : str) : M Reply :=
  fun w =>
    match replies w with
    | [] => (RequestException, {| replies := []; trace := trace w ++ [Get url] |})
    | r :: rest => (r, {| replies := rest; trace := trace w ++ [Get url] |})
    end.

End World.

Notation "x <- c ;; k" := (bind c (fun x => k))
  (at level 61, c at next level, right associativity).
Notation "c ;;; k" := (bind c (fun _ => k))
  (at level 61, right associativity).

(** ** The scraper: class [AmazonScraper] *)

Record AmazonScraper : Type := {
  base_url : str;
  search_terms : list str
}.

(** [AmazonScraper.__init__] *)
Definition AmazonScraper_init : AmazonScraper := {|
  base_url := "https://www.amazon.in";
  search_terms := ["electronics"; "books"; "home+kitchen"; "clothing";
                   "sports"; "toys"]
|}.

(** The dictionary that [extract_product_info] fills: [productName] may be
    [None], the other three keys always hold a string. *)
Record Product : Type := {
  productName : option str;
  price : str;
  link : str;
  image_url : str
}.

Definition clean_price (price_text : str) : str :=
  if negb (truthy price_text) then "Price not available"
  else
    let price_text := strip price_text in
    let price_text := strip (replace (replace price_text "$" "$") "Price:" "") in
    let price_text :=
      if truthy price_text && negb (startswith price_text "$")
      then "$" ++ price_text
      else price_text in
    if truthy price_text then price_text else "Price not available".

(** A double quote inside a selector, and a quoted attribute value. *)
Definition dquote : str := String (ascii_of_nat 34) EmptyString.
Definition quoted (v : str) : str := dquote ++ v ++ dquote.

Section Scraper.

Context `{Dom}.

(** [human_delay]: the wait drawn between the two bounds is left to the
    world; the event keeps the bounds that were asked for. *)
Definition human_delay (min_delay max_delay : Q) : M unit :=
  emit (Sleep min_delay max_delay).

(** [self.session.headers.update(self.get_random_headers())] *)
Definition update_headers : M unit := emit UpdateHeaders.

(** The body of the [for attempt in range(retries)] loop of
    [make_request], over the attempts still to run.  [Some response] is
    the early [return response]; the end of the loop falls through to
    [return None]. *)
Fixpoint make_request_loop (url : str) (retries : Z) (attempts : list Z)
  : M (option Response) :=
  match attempts with
  | [] => ret None
  | attempt :: rest =>
      update_headers ;;;
      (if (attempt =? 0)%Z then human_delay 2.0 5.0
       else human_delay 5.0 10.0) ;;;
      reply <- session_get url ;;
      match reply with
      | Returns response =>
          if (status_code response =? 200)%Z then ret (Some response)
          else if (status_code response =? 429)%Z then
            human_delay 10.0 20.0 ;;;
            make_request_loop url retries rest
          else make_request_loop url retries rest
      | RequestException =>
          (if (attempt <? retries - 1)%Z then human_delay 5.0 10.0
           else ret tt) ;;;
          make_request_loop url retries rest
      end
  end.

(** [range(n)] *)
Definition range (n : Z) : list Z := map Z.of_nat (seq 0 (Z.to_nat n)).

Definition make_request (self : AmazonScraper) (url : str) (retries : Z)
  : M (option Response) :=
  make_request_loop url retries (range retries).

(** *** Field locator *)

Fixpoint find_text_by_selectors (container : Tag) (selectors : list str)
  : option str :=
  match selectors with
  | [] => None
  | selector :: rest =>
      match select_one container selector with
      | Some element =>
          let text := get_text element in
          if truthy text then Some text
          else find_text_by_selectors container rest
      | None => find_text_by_selectors container rest
      end
  end.

Fixpoint find_element_by_selectors (container : Tag) (selectors : list str)
  : option Tag :=
  match selectors with
  | [] => None
  | selector :: rest =>
      match select_one container selector with
      | Some element => Some element
      | None => find_element_by_selectors container rest
      end
  end.

(** *** Record extractor *)

Definition name_selectors : list str := [
  "h2.a-size-mini span";
  "h2 a span";
  ".a-size-base-plus";
  ".a-size-medium";
  "h2.s-size-mini span";
  "[data-cy=" ++ quoted "title-recipe-title" ++ "]";
  ".a-size-mini span";
  "h3 a span";
  ".s-size-mini span"
].

Definition price_selectors : list str := [
  ".a-price.a-text-price.a-size-medium.a-color-base .a-offscreen";
  ".a-price-whole";
  ".a-price .a-offscreen";
  ".a-price-symbol";
  ".a-price-range .a-offscreen";
  ".a-price-range";
  "[data-a-size=" ++ quoted "xl" ++ "] .a-offscreen";
  ".a-price.a-text-price .a-offscreen"
].

Definition link_selectors : list str := [
  "h2.a-size-mini a";
  "h2 a";
  "[data-cy=" ++ quoted "title-recipe-title" ++ "] a";
  ".a-link-normal[href*=" ++ quoted "/dp/" ++ "]";
  "a[href*=" ++ quoted "/dp/" ++ "]";
  ".a-link-normal"
].

Definition img_selectors : list str := [
  ".s-image";
  ".a-dynamic-image";
  "img[data-src*=" ++ quoted "amazon" ++ "]";
  "img[src*=" ++ quoted "amazon" ++ "]";
  "img[data-src]";
  ".rush-component img"
].

(** The [link] entry: [link_element and link_element.get('href')] holds
    when an element was found and its [href] is a non-empty string. *)
Definition product_link (link_element : option Tag) : str :=
  match link_element with
  | Some element =>
      match get element "href" with
      | Some href =>
          if truthy href then
            if startswith href "http" then href
            else "https://www.amazon.in" ++ href
          else ""
      | None => ""
      end
  | None => ""
  end.

(** The [image_url] entry:
    [img_element.get('src') or img_element.get('data-src', '')]. *)
Definition product_image_url (img_element : option Tag) : str :=
  match img_element with
  | Some element =>
      let data_src :=
        match get element "data-src" with Some v => v | None => "" end in
      match get element "src" with
      | Some src => if truthy src then src else data_src
      | None => data_src
      end
  | None => ""
  end.

Definition extract_product_info (self : AmazonScraper) (container : Tag)
  : option Product :=
  let name := find_text_by_selectors container name_selectors in
  let price_text := find_text_by_selectors container price_selectors in
  let product := {|
    productName := name;
    price :=
      match price_text with
      | Some text => if truthy text then clean_price text
                     else "Price not available"
      | None => "Price not available"
      end;
    link := product_link (find_element_by_selectors container link_selectors);
    image_url :=
      product_image_url (find_element_by_selectors container img_selectors)
  |} in
  match productName product with
  | Some name => if (0 <? String.length (strip name))%nat then Some product
                 else None
  | None => None
  end.

(** *** Batch extraction *)

(** [product and product.get('productName')] *)
Definition has_name (product : option Product) : bool :=
  match product with
  | Some p => match productName p with Some n => truthy n | None => false end
  | None => false
  end.

(** The inner loop of [parse_product_data] over the containers of one
    selector; [products] is the list the method appends to. *)
Fixpoint parse_containers (self : AmazonScraper) (containers : list Tag)
    (products : list Product) : M (list Product) :=
  match containers with
  | [] => ret products
  | container :: rest =>
      match extract_product_info self container with
      | Some product =>
          if has_name (Some product) then
            human_delay 0.1 0.5 ;;;
            parse_containers self rest (products ++ [product])%list
          else parse_containers self rest products
      | None => parse_containers self rest products
      end
  end.

(** The outer loop of [parse_product_data] over the container selectors
    still to try; it is left ([break]) once [products] is not empty. *)
Fixpoint parse_selectors (self : AmazonScraper) (soup : Tag)
    (selectors : list str) (products : list Product) : M (list Product) :=
  match selectors with
  | [] => ret products
  | selector :: rest =>
      let containers := select soup selector in
      products <- parse_containers self (firstn 20 containers) products ;;
      match products with
      | _ :: _ => ret products
      | [] => parse_selectors self soup rest products
      end
  end.

Definition product_selectors : list str := [
  "[data-component-type=" ++ quoted "s-search-result" ++ "]";
  "[data-asin][data-component-type=" ++ quoted "s-search-result" ++ "]";
  ".s-result-item[data-component-type=" ++ quoted "s-search-result" ++ "]";
  "[data-cel-widget*=" ++ quoted "search_result" ++ "]";
  ".s-result-item:not([data-component-type=" ++ quoted "s-search-result" ++ "])"
].

Definition parse_product_data (self : AmazonScraper) (soup : Tag)
  : M (list Product) :=
  parse_selectors self soup product_selectors [].

(** *** Search orchestrator *)

Definition scrape_amazon_search (self : AmazonScraper) (search_term : str)
  : M (list Product) :=
  let search_url := base_url self ++ "/s?k=" ++ search_term ++ "&ref=sr_pg_1" in
  response <- make_request self search_url 3 ;;
  match response with
  | None => ret []
  | Some response =>
      let soup := BeautifulSoup (content response) in
      parse_product_data self soup
  end.

(** The loop of [scrape_with_fallback] over the search terms still to
    try. *)
Fixpoint scrape_fallback_loop (self : AmazonScraper) (terms : list str)
    (all_products : list Product) : M (list Product) :=
  match terms with
  | [] => ret all_products
  | search_term :: rest =>
      products <- scrape_amazon_search self search_term ;;
      match products with
      | _ :: _ => ret (all_products ++ products)%list
      | [] =>
          human_delay 3.0 7.0 ;;;
          scrape_fallback_loop self rest all_products
      end
  end.

Definition scrape_with_fallback (self : AmazonScraper) : M (list Product) :=
  scrape_fallback_loop self (search_terms self) [].

End Scraper.

(** ** The request handler: api.py *)

Record SearchRequest : Type := {
  country : str;
  query : str
}.

(** The exceptions the handler meets.  [fastapi.HTTPException] derives
    from [Exception], so an [except Exception] clause catches it. *)
Inductive Exception : Type :=
| HTTPException (code : Z) (detail : str).

(** [str(e)]: for an [HTTPException] the status code, a colon and the
    detail. *)
Definition Exception_str (e : Exception) : str :=
  match e with
  | HTTPException code detail =>
      NilZero.string_of_int (Z.to_int code) ++ ": " ++ detail
  end.

Definition country_domains : list (str * str) := [
  ("US", "https://www.amazon.com");
  ("UK", "https://www.amazon.co.uk");
  ("CA", "https://www.amazon.ca");
  ("IN", "https://www.amazon.in")
].

(** [d[key]] with [key in d] as the [Some] case *)
Fixpoint dict_get (d : list (str * str)) (key : str) : option str :=
  match d with
  | [] => None
  | (k, v) :: rest => if String.eqb k key then Some v else dict_get rest key
  end.

Section Api.

Context `{Dom}.

(** The [try] block of [search_products]: [inl e] is [raise e].  The
    scraper's methods are taken to return: an exception escaping them
    (from the HTML parser, say) would be caught by the same [except]
    clause and has no counterpart here. *)
Definition search_products_try (request : SearchRequest)
  : M (Exception + list Product) :=
  let scraper := AmazonScraper_init in
  match dict_get country_domains (country request) with
  | None =>
      ret (inl (HTTPException 400
                  ("Unsupported country code: " ++ country request)))
  | Some domain =>
      let scraper := {| base_url := domain;
                        search_terms := search_terms scraper |} in
      products <- scrape_amazon_search scraper (query request) ;;
      match products with
      | [] => ret (inr [])
      | _ :: _ => ret (inr products)
      end
  end.

(** [search_products]: whatever the [try] block raises is caught by
    [except Exception as e] and raised again as status 500. *)
Definition search_products (request : SearchRequest)
  : M (Exception + list Product) :=
  result <- search_products_try request ;;
  match result with
  | inl e => ret (inl (HTTPException 500 (Exception_str e)))
  | inr products => ret (inr products)
  end.

End Api.

(** ** A small document tree with CSS matching

    An implementation of [Dom] on which the scraper can be run: elements
    with attributes and children, and the selectors the scraper uses
    (type, class and attribute tests, [:not(...)], descendant chains). *)

Module Html.

Definition attrs : Type := list (str * str).

#[local] Unset Elimination Schemes.
Inductive node : Type :=
| Text (s : str)
| Elem (name : str) (attributes : attrs) (children : list node).
#[local] Set Elimination Schemes.

(** An element together with the path to it: the names and attributes
    of its ancestors, nearest first. *)
Record tag : Type := {
  parents : list (str * attrs);
  element : node
}.

Inductive atom : Type :=
| Type_ (name : str)
| Class_ (c : str)
| Has (a : str)
| Equals (a v : str)
| Substring (a v : str).

Inductive simple : Type :=
| Is (x : atom)
| IsNot (inner : list atom).

Definition compound : Type := list simple.

(** A chain of compounds joined by the descendant combinator, leftmost
    first. *)
Definition complex : Type := list compound.

(** *** Reading a selector *)

Definition is_ident_char (c : ascii) : bool :=
  let n := nat_of_ascii c in
  ((48 <=? n) && (n <=? 57) || (65 <=? n) && (n <=? 90)
   || (97 <=? n) && (n <=? 122) || (n =? 45) || (n =? 95))%nat.

Fixpoint ident (s : str) : str * str :=
  match s with
  | EmptyString => (EmptyString, EmptyString)
  | String c s' =>
      if is_ident_char c
      then let (i, r) := ident s' in (String c i, r)
      else (EmptyString, s)
  end.

Definition eat (p s : str) : option str :=
  if startswith s p then Some (drop (String.length p) s) else None.

Fixpoint until_quote (s : str) : option (str * str) :=
  match s with
  | EmptyString => None
  | String c s' =>
      if Ascii.eqb c (ascii_of_nat 34) then Some (EmptyString, s')
      else match until_quote s' with
           | Some (v, r) => Some (String c v, r)
           | None => None
           end
  end.

(** After an opening bracket: [a]], [a="v"]] or [a*="v"]]. *)
Definition attribute (s : str) : option (atom * str) :=
  let (a, r) := ident s in
  if truthy a then
    match eat "]" r with
    | Some r' => Some (Has a, r')
    | None =>
        match eat ("=" ++ dquote) r with
        | Some r' =>
            match until_quote r' with
            | Some (v, r'') =>
                match eat "]" r'' with
                | Some r3 => Some (Equals a v, r3)
                | None => None
                end
            | None => None
            end
        | None =>
            match eat ("*=" ++ dquote) r with
            | Some r' =>
                match until_quote r' with
                | Some (v, r'') =>
                    match eat "]" r'' with
                    | Some r3 => Some (Substring a v, r3)
                    | None => None
                    end
                | None => None
                end
            | None => None
            end
        end
    end
  else None.

(** One class or attribute test at the head of [s]: [Some None] when
    [s] does not start with one, [None] when it is malformed. *)
Definition one_atom (s : str) : option (option (atom * str)) :=
  match eat "." s with
  | Some r =>
      let (c, r') := ident r in
      if truthy c then Some (Some (Class_ c, r')) else None
  | None =>
      match eat "[" s with
      | Some r =>
          match attribute r with
          | Some found => Some (Some found)
          | None => None
          end
      | None => Some None
      end
  end.

Fixpoint atoms (fuel : nat) (s : str) : option (list atom * str) :=
  match fuel with
  | O => None
  | S fuel' =>
      match one_atom s with
      | None => None
      | Some None => Some ([], s)
      | Some (Some (x, r)) =>
          match atoms fuel' r with
          | Some (l, r') => Some (x :: l, r')
          | None => None
          end
      end
  end.

(** The argument of [:not(...)]: an optional type name, then tests. *)
Definition inner_compound (s : str) : option (list atom * str) :=
  let (t, r) := ident s in
  match atoms (S (String.length r)) r with
  | Some (l, r') =>
      Some ((if truthy t then [Type_ t] else []) ++ l, r')%list
  | None => None
  end.

Definition one_simple (s : str) : option (option (simple * str)) :=
  match eat ":not(" s with
  | Some r =>
      match inner_compound r with
      | Some (inner, r') =>
          match eat ")" r' with
          | Some r'' => Some (Some (IsNot inner, r''))
          | None => None
          end
      | None => None
      end
  | None =>
      match one_atom s with
      | None => None
      | Some None => Some None
      | Some (Some (x, r)) => Some (Some (Is x, r))
      end
  end.

Fixpoint simples (fuel : nat) (s : str) : option (list simple * str) :=
  match fuel with
  | O => None
  | S fuel' =>
      match one_simple s with
      | None => None
      | Some None => Some ([], s)
      | Some (Some (x, r)) =>
          match simples fuel' r with
          | Some (l, r') => Some (x :: l, r')
          | None => None
          end
      end
  end.

Definition compound_of (s : str) : option (compound * str) :=
  let (t, r) := ident s in
  match simples (S (String.length r)) r with
  | Some (l, r') =>
      match ((if truthy t then [Is (Type_ t)] else []) ++ l)%list with
      | [] => None
      | c => Some (c, r')
      end
  | None => None
  end.

Fixpoint chain (fuel : nat) (s : str) : option complex :=
  match fuel with
  | O => None
  | S fuel' =>
      match compound_of s with
      | Some (c, EmptyString) => Some [c]
      | Some (c, String ch r) =>
          if isspace ch then
            match chain fuel' (lstrip r) with
            | Some l => Some (c :: l)
            | None => None
            end
          else None
      | None => None
      end
  end.

(** The selector as a chain of compounds; [None] for what this reader
    does not cover (selector lists, child and sibling combinators). *)
Definition css (selector : str) : option complex :=
  chain (S (String.length selector)) (strip selector).

(** *** Matching *)

Fixpoint attr_get (a : attrs) (key : str) : option str :=
  match a with
  | [] => None
  | (k, v) :: rest => if String.eqb k key then Some v else attr_get rest key
  end.

(** White-space separated words; [cur] is the word being read. *)
Fixpoint words (cur s : str) : list str :=
  match s with
  | EmptyString => if truthy cur then [cur] else []
  | String c s' =>
      if isspace c
      then ((if truthy cur then [cur] else []) ++ words EmptyString s')%list
      else words (cur ++ String c EmptyString) s'
  end.

Definition classes (a : attrs) : list str :=
  match attr_get a "class" with
  | Some v => words EmptyString v
  | None => []
  end.

Definition match_atom (name : str) (a : attrs) (x : atom) : bool :=
  match x with
  | Type_ n => String.eqb n name
  | Class_ c => existsb (String.eqb c) (classes a)
  | Has k => match attr_get a k with Some _ => true | None => false end
  | Equals k v =>
      match attr_get a k with Some u => String.eqb u v | None => false end
  | Substring k v =>
      match attr_get a k with
      | Some u => truthy v && contains u v
      | None => false
      end
  end.

Definition match_simple (name : str) (a : attrs) (x : simple) : bool :=
  match x with
  | Is y => match_atom name a y
  | IsNot inner => negb (forallb (match_atom name a) inner)
  end.

Definition match_compound (name : str) (a : attrs) (c : compound) : bool :=
  forallb (match_simple name a) c.

(** The compounds to the left of the subject, nearest first, each need
    an ancestor further up than the one before. *)
Fixpoint match_up (outer : list compound) (up : list (str * attrs)) : bool :=
  match outer with
  | [] => true
  | c :: outer' =>
      (fix find (up : list (str * attrs)) : bool :=
         match up with
         | [] => false
         | (n, a) :: up' =>
             if match_compound n a c then match_up outer' up' else find up'
         end) up
  end.

Definition matches (sel : complex) (t : tag) : bool :=
  match rev sel, element t with
  | subject :: outer, Elem name a _ =>
      match_compound name a subject && match_up outer (parents t)
  | _, _ => false
  end.

(** The elements below [n], in document order. *)
Fixpoint below (up : list (str * attrs)) (n : node) : list tag :=
  match n with
  | Text _ => []
  | Elem name a children =>
      flat_map
        (fun child =>
           match child with
           | Text _ => []
           | Elem _ _ _ =>
               {| parents := (name, a) :: up; element := child |}
               :: below ((name, a) :: up) child
           end)
        children
  end.

Definition select (t : tag) (selector : str) : list tag :=
  match css selector with
  | Some sel => filter (matches sel) (below (parents t) (element t))
  | None => []
  end.

Fixpoint strings (n : node) : list str :=
  match n with
  | Text s => [s]
  | Elem _ _ children => flat_map strings children
  end.

(** [get_text(strip=True)]: every string below the element, stripped,
    the empty ones left out, joined without a separator. *)
Definition get_text (t : tag) : str :=
  String.concat EmptyString (filter truthy (map strip (strings (element t)))).

Definition get (t : tag) (key : str) : option str :=
  match element t with
  | Elem _ a _ => attr_get a key
  | Text _ => None
  end.

Definition BeautifulSoup (content : list node) : tag :=
  {| parents := []; element := Elem "[document]" [] content |}.

#[export] Instance dom : Dom :=
  Build_Dom tag (list node) BeautifulSoup select get_text get.

End Html.


(** ** Documents to run the scraper on *)

Module Fixture.

Import Html.

Definition fragment (n : node) : @Tag dom :=
  {| parents := []; element := n |}.

(** <div>
      <h2 class="a-size-mini"><span></span></h2>
      <span class="a-size-base-plus">Lamp</span>
    </div> *)
Definition empty_heading : @Tag dom :=
  fragment
    (Elem "div" [] [
       Elem "h2" [("class", "a-size-mini")] [Elem "span" [] []];
       Elem "span" [("class", "a-size-base-plus")] [Text "Lamp"]
     ]).

(** <div>
      <h2><a><span>Desk</span></a></h2>
      <a class="a-link-normal" href="/dp/B02">more</a>
    </div> *)
Definition link_without_href : @Tag dom :=
  fragment
    (Elem "div" [] [
       Elem "h2" [] [Elem "a" [] [Elem "span" [] [Text "Desk"]]];
       Elem "a" [("class", "a-link-normal"); ("href", "/dp/B02")] [Text "more"]
     ]).

(** <div>
      <h2><a href="/dp/B04"><span>   </span></a></h2>
      <span class="a-price-whole">499</span>
      <img class="s-image" src="https://m.media-amazon.com/i.jpg">
    </div> *)
Definition blank_name : @Tag dom :=
  fragment
    (Elem "div" [] [
       Elem "h2" [] [Elem "a" [("href", "/dp/B04")]
                       [Elem "span" [] [Text "   "]]];
       Elem "span" [("class", "a-price-whole")] [Text "499"];
       Elem "img" [("class", "s-image");
                   ("src", "https://m.media-amazon.com/i.jpg")] []
     ]).

(** <div><h2 class="a-size-mini"><span>Chair</span></h2></div> *)
Definition name_only : @Tag dom :=
  fragment
    (Elem "div" [] [
       Elem "h2" [("class", "a-size-mini")] [Elem "span" [] [Text "Chair"]]
     ]).

(** A page whose only result container holds nothing, followed by a
    widget that holds a product:
    <div data-component-type="s-search-result"></div>
    <div data-cel-widget="search_result_1">
      <h2><a href="/dp/B01"><span>Kettle</span></a></h2>
    </div> *)
Definition empty_result_then_widget : @Content dom := [
  Elem "div" [("data-component-type", "s-search-result")] [];
  Elem "div" [("data-cel-widget", "search_result_1")] [
    Elem "h2" [] [Elem "a" [("href", "/dp/B01")]
                    [Elem "span" [] [Text "Kettle"]]]
  ]
].

(** A page with one result:
    <div data-component-type="s-search-result">
      <h2><a href="/dp/B03"><span>Lamp</span></a></h2>
    </div> *)
Definition one_result : @Content dom := [
  Elem "div" [("data-component-type", "s-search-result")] [
    Elem "h2" [] [Elem "a" [("href", "/dp/B03")]
                    [Elem "span" [] [Text "Lamp"]]]
  ]
].

(** A page with three results:
    <div data-component-type="s-search-result">
      <h2><a href="/dp/B11"><span>Novel</span></a></h2>
      <span class="a-price-whole">299</span>
    </div>
    <div data-component-type="s-search-result">
      <h2><a href="https://www.amazon.in/dp/B12"><span>Atlas</span></a></h2>
    </div>
    <div data-component-type="s-search-result">
      <h2><a href="/dp/B13"><span>Diary</span></a></h2>
      <img class="s-image" data-src="https://m.media-amazon.com/d.jpg">
    </div> *)
Definition three_results : @Content dom := [
  Elem "div" [("data-component-type", "s-search-result")] [
    Elem "h2" [] [Elem "a" [("href", "/dp/B11")]
                    [Elem "span" [] [Text "Novel"]]];
    Elem "span" [("class", "a-price-whole")] [Text "299"]
  ];
  Elem "div" [("data-component-type", "s-search-result")] [
    Elem "h2" [] [Elem "a" [("href", "https://www.amazon.in/dp/B12")]
                    [Elem "span" [] [Text "Atlas"]]]
  ];
  Elem "div" [("data-component-type", "s-search-result")] [
    Elem "h2" [] [Elem "a" [("href", "/dp/B13")]
                    [Elem "span" [] [Text "Diary"]]];
    Elem "img" [("class", "s-image");
                ("data-src", "https://m.media-amazon.com/d.jpg")] []
  ]
].

(** A page without results: <p>Sorry</p> *)
Definition no_result : @Content dom := [Elem "p" [] [Text "Sorry"]].

Definition ok (page : @Content dom) : Reply :=
  Returns {| status_code := 200; content := page |}.

(** A world in which nothing has happened yet. *)
Definition fresh (answers : list Reply) : World :=
  {| replies := answers; trace := [] |}.

End Fixture.

(** ** Words for the properties *)

Section Vocabulary.

Context `{Dom}.

(** A pattern is passed over by [find_text_by_selectors] when it has no
    match or when its match has no text. *)
Definition no_text (container : Tag) (selector : str) : Prop :=
  match select_one container selector with
  | Some element => get_text element = ""
  | None => True
  end.

(** A reply that ends the retry loop with success. *)
Definition is_ok (reply : Reply) : bool :=
  match reply with
  | Returns response => (status_code response =? 200)%Z
  | RequestException => false
  end.

Definition is_get (e : Event) : bool :=
  match e with Get _ => true | _ => false end.

(** The number of requests sent in a stretch of the trace. *)
Definition gets (events : list Event) : nat :=
  List.length (filter is_get events).

(** The records accepted among some containers, in their order. *)
Definition accepted (self : AmazonScraper) (containers : list Tag)
  : list Product :=
  flat_map
    (fun container =>
       match extract_product_info self container with
       | Some product => [product]
       | None => []
       end)
    containers.

(** What one container strategy yields on a page: the records accepted
    among its first twenty matches. *)
Definition yield (self : AmazonScraper) (soup : Tag) (selector : str)
  : list Product :=
  accepted self (firstn 20 (select soup selector)).

(** The world after [n] of the short waits taken after each accepted
    record. *)
Definition after_pauses (n : nat) (w : World) : World :=
  {| replies := replies w;
     trace := trace w ++ repeat (Sleep 0.1 0.5) n |}.

(** Each of [queries], searched in turn from [w] with the wait of
    [scrape_with_fallback] after it, comes back without a record. *)
Fixpoint all_empty (self : AmazonScraper) (queries : list str) (w : World)
  : Prop :=
  match queries with
  | [] => True
  | q :: rest =>
      fst (scrape_amazon_search self q w) = []
      /\ all_empty self rest
           (snd (human_delay 3.0 7.0 (snd (scrape_amazon_search self q w))))
  end.

(** The world after those searches and waits. *)
Fixpoint after_empty (self : AmazonScraper) (queries : list str) (w : World)
  : World :=
  match queries with
  | [] => w
  | q :: rest =>
      after_empty self rest
        (snd (human_delay 3.0 7.0 (snd (scrape_amazon_search self q w))))
  end.

End Vocabulary.

(** ** Accounting for requests *)

Section Accounting.

Context `{Dom}.

(** [w'] is [w] after [events]: they were added to the trace, and one
    reply was used up for each request among them. *)
Definition follows (w w' : World) (events : list Event) : Prop :=
  trace w' = (trace w ++ events)%list
  /\ replies w' = skipn (gets events) (replies w).

(** Every request among [events] went to [url]. *)
Definition requests_to (url : str) (events : list Event) : Prop :=
  Forall (fun e => match e with Get u => u = url | _ => True end) events.

(** The [search_url] that [scrape_amazon_search] builds. *)
Definition search_url (self : AmazonScraper) (search_term : str) : str :=
  base_url self ++ "/s?k=" ++ search_term ++ "&ref=sr_pg_1".

(** [events] is what the search for one term adds to the trace: at
    least one and at most three requests, all of them to the search URL
    of that term. *)
Definition term_segment (self : AmazonScraper) (search_term : str)
    (events : list Event) : Prop :=
  (1 <= gets events <= 3)%nat
  /\ requests_to (base_url self ++ "/s?k=" ++ search_term ++ "&ref=sr_pg_1")
                 events.

End Accounting.

(** ** Rendering: [generate_product_cards] *)

Definition newline : str := String (ascii_of_nat 10) EmptyString.

(** [s[:n]] *)
Fixpoint take (n : nat) (s : str) : str :=
  match n, s with
  | S k, String c s' => String c (take k s')
  | _, _ => EmptyString
  end.

(** The heading of a card: [name[:100]], followed by three dots when
    the name is longer than that. *)
Definition card_title (name : str) : str :=
  take 100 name ++ (if (100 <? String.length name)%nat then "..." else "").

(** The f-string [card_html] of one record, a list entry for each of its
    lines.  With [productName] at [None] the slice [None[:100]] raises
    [TypeError]: that is the result [None]. *)
Definition card_html (product : Product) : option str :=
  let image :=
    if truthy (image_url product) then image_url product
    else "https://via.placeholder.com/300x300/f0f0f0/999999?text=No+Image" in
  let disabled :=
    if negb (truthy (link product))
    then "style=" ++ quoted "pointer-events: none; opacity: 0.5;"
    else "" in
  match productName product with
  | None => None
  | Some name =>
      Some (String.concat newline [
           "";
           "        <div class="
             ++ quoted "product-card bg-white rounded-lg shadow-md overflow-hidden"
             ++ ">";
           "            <div class="
             ++ quoted "aspect-square bg-gray-100 flex items-center justify-center"
             ++ ">";
           "                <img src=" ++ quoted image ++ " ";
           "                     alt=" ++ quoted name ++ " ";
           "                     class="
             ++ quoted "product-image w-full h-full object-contain";
           "                     onerror="
             ++ quoted "this.src='https://via.placeholder.com/300x300/f0f0f0/999999?text=No+Image'"
             ++ ">";
           "            </div>";
           "            <div class=" ++ quoted "p-4" ++ ">";
           "                <h3 class="
             ++ quoted "font-semibold text-sm text-gray-800 mb-2 line-clamp-2 h-10 overflow-hidden"
             ++ ">";
           "                    " ++ (card_title name);
           "                </h3>";
           "                <p class="
             ++ quoted "text-lg font-bold text-green-600 mb-3" ++ ">";
           "                    " ++ (price product);
           "                </p>";
           "                <a href=" ++ quoted (link product) ++ " ";
           "                   target=" ++ quoted "_blank" ++ " ";
           "                   class="
             ++ quoted "block w-full bg-blue-600 hover:bg-blue-700 text-white text-center py-2 px-4 rounded-md text-sm font-medium transition-colors duration-200";
           "                   " ++ disabled ++ ">";
           "                    View Product";
           "                </a>";
           "            </div>";
           "        </div>"
      ])
  end.

(** The loop of [generate_product_cards]; [cards] is the list it appends
    to. *)
Fixpoint generate_cards_loop (products : list Product) (cards : list str)
  : option (list str) :=
  match products with
  | [] => Some cards
  | product :: rest =>
      match card_html product with
      | Some card => generate_cards_loop rest (cards ++ [card])%list
      | None => None
      end
  end.

Definition generate_product_cards (products : list Product) : option str :=
  match generate_cards_loop products [] with
  | Some cards => Some (String.concat newline cards)
  | None => None
  end.

(** ** More documents *)

Module Shelf.

Import Html.

(** <div>
      <h2><a href="/dp/B05"><span>Mug</span></a></h2>
      <span class="a-price"><span class="a-offscreen"> Price: 249 </span></span>
      <img class="s-image" src="" data-src="https://m.media-amazon.com/m.jpg">
    </div> *)
Definition mug : @Tag dom :=
  Fixture.fragment
    (Elem "div" [] [
       Elem "h2" [] [Elem "a" [("href", "/dp/B05")]
                       [Elem "span" [] [Text "Mug"]]];
       Elem "span" [("class", "a-price")]
         [Elem "span" [("class", "a-offscreen")] [Text " Price: 249 "]];
       Elem "img" [("class", "s-image"); ("src", "");
                   ("data-src", "https://m.media-amazon.com/m.jpg")] []
     ]).

(** A reply with a status other than 200. *)
Definition refused (status : Z) : Reply :=
  Returns {| status_code := status; content := Fixture.no_result |}.

End Shelf.

(** ** Proof steps for the retry loop *)

(** Unfold one turn of the retry loop down to the replies and the
    trace; then name the events it added. *)
Ltac run_turn :=
  cbn [make_request_loop];
  unfold bind, update_headers, human_delay, emit, session_get, ret;
  cbn [replies trace].

Ltac close_turn :=
  rewrite <- ?app_assoc; cbn [app];
  eexists; (split; [|reflexivity]); reflexivity.

(** * Properties *)

(** ** Strings *)

Module PyFacts.

Lemma lstrip_fixed c s : isspace c = false -> lstrip (String c s) = String c s.
Proof. intros Hc. simpl. now rewrite Hc. Qed.

Lemma lstrip_idem s : lstrip (lstrip s) = lstrip s.
Proof.
  induction s as [|c s IH]; simpl; [reflexivity|].
  destruct (isspace c) eqn:Hc; [exact IH|].
  simpl. now rewrite Hc.
Qed.

Lemma rstrip_idem s : rstrip (rstrip s) = rstrip s.
Proof.
  induction s as [|c s IH]; simpl; [reflexivity|].
  destruct (rstrip s) as [|d r] eqn:Hr.
  - destruct (isspace c) eqn:Hc; simpl; [reflexivity|]. now rewrite Hc.
  - change (rstrip (String c (String d r))) with
      (match rstrip (String d r) with
       | EmptyString => if isspace c then EmptyString else String c EmptyString
       | String a b => String c (String a b)
       end).
    now rewrite IH.
Qed.

(** [rstrip] keeps a first character that is not white space. *)
Lemma rstrip_head c s :
  isspace c = false -> exists r, rstrip (String c s) = String c r.
Proof.
  intros Hc. simpl. destruct (rstrip s) as [|d r].
  - rewrite Hc. now exists EmptyString.
  - now exists (String d r).
Qed.

Lemma lstrip_rstrip_lstrip s : lstrip (rstrip (lstrip s)) = rstrip (lstrip s).
Proof.
  induction s as [|c s IH]; [reflexivity|].
  simpl lstrip at 2 3. destruct (isspace c) eqn:Hc; [exact IH|].
  destruct (rstrip_head c s Hc) as [r Hr]. rewrite Hr.
  now apply lstrip_fixed.
Qed.

Lemma strip_idem s : strip (strip s) = strip s.
Proof.
  unfold strip. rewrite lstrip_rstrip_lstrip. apply rstrip_idem.
Qed.

(** A character that is not white space can be put in front of a
    stripped, non-empty string. *)
Lemma strip_cons c t :
  isspace c = false -> strip t = t -> truthy t = true ->
  strip (String c t) = String c t.
Proof.
  intros Hc Ht Hne. unfold strip. rewrite (lstrip_fixed c t Hc).
  assert (Hr : rstrip t = t).
  { rewrite <- Ht at 1. unfold strip. rewrite rstrip_idem. exact Ht. }
  simpl. rewrite Hr. destruct t; [discriminate|reflexivity].
Qed.

Lemma startswith_split s p :
  startswith s p = true -> s = p ++ drop (String.length p) s.
Proof.
  revert s. induction p as [|b p IH]; intros s Hs; [reflexivity|].
  destruct s as [|a s]; [discriminate|]. simpl in Hs.
  apply andb_prop in Hs as [Hab Hs]. apply Ascii.eqb_eq in Hab. subst b.
  simpl. f_equal. now apply IH.
Qed.

Lemma drop_nil n : drop n EmptyString = EmptyString.
Proof. now destruct n. Qed.

(** Replacing a text by itself changes nothing. *)
Lemma replace_scan_same old s k :
  truthy old = true -> replace_scan old old k s = drop k s.
Proof.
  intros Hold. destruct old as [|b old]; [discriminate|].
  revert k. induction s as [|c s IH]; intros k.
  - now rewrite drop_nil.
  - destruct k as [|k]; cbn [replace_scan drop]; [|apply IH].
    destruct (startswith (String c s) (String b old)) eqn:Hm.
    + rewrite IH. apply startswith_split in Hm.
      cbn [String.length Nat.sub]. rewrite Nat.sub_0_r.
      symmetry. exact Hm.
    + rewrite IH. reflexivity.
Qed.

Lemma replace_same s old : replace s old old = s.
Proof.
  destruct old as [|b old].
  - simpl. induction s as [|c s IH]; simpl; [reflexivity|]. now rewrite IH.
  - unfold replace. now rewrite replace_scan_same.
Qed.

(** Nothing is replaced where the text does not occur. *)
Lemma replace_scan_absent old new s :
  contains s old = false -> replace_scan old new 0 s = s.
Proof.
  induction s as [|c s IH]; intros Hc; [reflexivity|].
  cbn [contains] in Hc. apply orb_false_elim in Hc as [Hm Hc].
  cbn [replace_scan]. rewrite Hm. now rewrite IH.
Qed.

Lemma replace_absent s old new :
  truthy old = true -> contains s old = false -> replace s old new = s.
Proof.
  intros Hold Hc. destruct old; [discriminate|].
  unfold replace. now apply replace_scan_absent.
Qed.

End PyFacts.

(** ** Price sanitising *)

Section CleanPrice.

Import PyFacts.

(** What [clean_price] returns is the sentinel, or a stripped text that
    starts with the currency sign. *)
Lemma clean_price_shape x :
  clean_price x = "Price not available"
  \/ (truthy (clean_price x) = true
      /\ strip (clean_price x) = clean_price x
      /\ startswith (clean_price x) "$" = true).
Proof.
  unfold clean_price. destruct (truthy x); cbn [negb]; [|now left].
  set (t := strip (replace (replace (strip x) "$" "$") "Price:" "")).
  assert (Ht : strip t = t) by apply strip_idem.
  destruct (truthy t) eqn:Hne; cbn [andb]; [|rewrite Hne; now left].
  right. destruct (startswith t "$") eqn:Hd; cbn [negb].
  - rewrite Hne. auto.
  - change ("$" ++ t) with (String "$" t). cbn [truthy].
    split; [reflexivity|]. split; [now apply strip_cons|].
    simpl. now destruct t.
Qed.

(** The texts that [clean_price] leaves as they are. *)
Lemma clean_price_fixed y :
  truthy y = true -> strip y = y -> startswith y "$" = true ->
  contains y "Price:" = false -> clean_price y = y.
Proof.
  intros Hne Hs Hd Hc. unfold clean_price.
  rewrite Hne. cbn [negb]. rewrite Hs, replace_same.
  rewrite replace_absent by (reflexivity || assumption).
  rewrite Hs, Hne, Hd. cbn [andb negb]. now rewrite Hne.
Qed.

(** C4, as stated, fails: the sentinel that an empty input yields is
    not kept by a second pass, which puts a currency sign in front
    of it. *)
Lemma clean_price_not_idempotent :
  ~ (forall x : str, clean_price (clean_price x) = clean_price x).
Proof. intros Hall. specialize (Hall ""). discriminate Hall. Qed.

(** C4 (amended): sanitising is idempotent on every input whose
    sanitised price is not the sentinel and holds no further
    occurrence of the label "Price:". *)
Theorem clean_price_idempotent x :
  clean_price x <> "Price not available" ->
  contains (clean_price x) "Price:" = false ->
  clean_price (clean_price x) = clean_price x.
Proof.
  intros Hsent Hc.
  destruct (clean_price_shape x) as [Heq | (Hne & Hs & Hd)]; [contradiction|].
  now apply clean_price_fixed.
Qed.

Lemma clean_price_idempotent_witness :
  clean_price "  Price: 12.50 " <> "Price not available"
  /\ contains (clean_price "  Price: 12.50 ") "Price:" = false
  /\ clean_price (clean_price "  Price: 12.50 ") = clean_price "  Price: 12.50 ".
Proof.
  split; [discriminate|]. split; [reflexivity|].
  apply (clean_price_idempotent "  Price: 12.50 "); [discriminate|reflexivity].
Defined.

(** The second restriction is needed as well: removing the label can
    bring a new occurrence of it together. *)
Example clean_price_residual_label :
  clean_price "PricePrice::" = "$Price:"
  /\ clean_price (clean_price "PricePrice::") = "$".
Proof. split; reflexivity. Qed.

End CleanPrice.

(** ** Field locator *)

Section Locator.

Context `{Dom}.

Lemma truthy_false s : truthy s = false <-> s = "".
Proof. destruct s; simpl; split; congruence. Qed.

Lemma find_text_skip container pre rest :
  Forall (no_text container) pre ->
  find_text_by_selectors container (pre ++ rest)
  = find_text_by_selectors container rest.
Proof.
  induction 1 as [|q pre Hq _ IH]; [reflexivity|].
  cbn [app find_text_by_selectors]. unfold no_text in Hq.
  destruct (select_one container q) as [e|]; [|exact IH].
  rewrite Hq. exact IH.
Qed.

Lemma find_element_skip container pre rest :
  Forall (fun q => select_one container q = None) pre ->
  find_element_by_selectors container (pre ++ rest)
  = find_element_by_selectors container rest.
Proof.
  induction 1 as [|q pre Hq _ IH]; [reflexivity|].
  cbn [app find_element_by_selectors]. now rewrite Hq.
Qed.

(** The entries of an accepted record. *)
Lemma extract_product_info_Some self container product :
  extract_product_info self container = Some product ->
  productName product = find_text_by_selectors container name_selectors
  /\ price product =
       match find_text_by_selectors container price_selectors with
       | Some text => if truthy text then clean_price text
                      else "Price not available"
       | None => "Price not available"
       end
  /\ link product =
       product_link (find_element_by_selectors container link_selectors)
  /\ image_url product =
       product_image_url (find_element_by_selectors container img_selectors).
Proof.
  unfold extract_product_info. cbn [productName].
  destruct (find_text_by_selectors container name_selectors) as [name|];
    [|discriminate].
  destruct (0 <? String.length (strip name))%nat; [|discriminate].
  intros Heq. injection Heq as Heq. rewrite <- Heq.
  repeat split; reflexivity.
Qed.

(** C8 (amended): the text returned is that of the earliest pattern
    whose match has a non-empty text; patterns before it that match
    nothing or match an element without text are passed over, and the
    patterns after it have no say in the result. *)
Theorem find_text_first_with_text container pre p post element :
  Forall (no_text container) pre ->
  select_one container p = Some element ->
  truthy (get_text element) = true ->
  find_text_by_selectors container (pre ++ p :: post)
  = Some (get_text element).
Proof.
  intros Hpre Hp Ht. rewrite find_text_skip by assumption.
  cbn [find_text_by_selectors]. now rewrite Hp, Ht.
Qed.

(** C10: [find_element_by_selectors] returns the match of the earliest
    pattern that matches, whatever that element holds, whereas
    [find_text_by_selectors] passes over a match without text; so when
    the earliest matching link pattern finds an element without [href]
    in a container with a name, the record is returned with an empty
    link, whatever the later patterns match. *)
Theorem find_element_earliest_match :
  (forall container pre p post element,
      Forall (fun q => select_one container q = None) pre ->
      select_one container p = Some element ->
      find_element_by_selectors container (pre ++ p :: post) = Some element)
  /\ (forall container p rest element,
         select_one container p = Some element ->
         get_text element = "" ->
         find_text_by_selectors container (p :: rest)
         = find_text_by_selectors container rest)
  /\ (forall self container pre p post element name,
         link_selectors = (pre ++ p :: post)%list ->
         Forall (fun q => select_one container q = None) pre ->
         select_one container p = Some element ->
         get element "href" = None ->
         find_text_by_selectors container name_selectors = Some name ->
         strip name <> "" ->
         exists product,
           extract_product_info self container = Some product
           /\ productName product = Some name
           /\ link product = "").
Proof.
  split; [|split].
  - intros container pre p post element Hpre Hp.
    rewrite find_element_skip by assumption.
    cbn [find_element_by_selectors]. now rewrite Hp.
  - intros container p rest element Hp Ht.
    cbn [find_text_by_selectors]. now rewrite Hp, Ht.
  - intros self container pre p post element name Hsel Hpre Hp Hhref.
    intros Hname Hne.
    assert (Hex : exists product,
               extract_product_info self container = Some product
               /\ productName product = Some name).
    { unfold extract_product_info. cbn [productName]. rewrite Hname.
      destruct (strip name) as [|c rest]; [now elim Hne|].
      change (0 <? String.length (String c rest))%nat with true.
      eexists. split; reflexivity. }
    destruct Hex as (product & Hex & Hnamed).
    exists product. split; [exact Hex|]. split; [exact Hnamed|].
    apply extract_product_info_Some in Hex as (_ & _ & -> & _).
    rewrite Hsel. rewrite find_element_skip by assumption.
    cbn [find_element_by_selectors]. rewrite Hp.
    unfold product_link. now rewrite Hhref.
Qed.

End Locator.

Section LocatorOnDocuments.

Import Fixture.

(** C8, as stated, fails: in [empty_heading] the first name pattern
    matches a heading without text and the third one matches a
    caption, and the text returned is that of the third pattern. *)
Lemma find_text_later_pattern :
  ~ (forall (D : Dom) (container : Tag) (pre : list str) (p : str)
            (post : list str) (element : Tag) (text : str),
        Forall (fun q => select_one container q = None) pre ->
        select_one container p = Some element ->
        find_text_by_selectors container (pre ++ p :: post) = Some text ->
        text = get_text element).
Proof.
  intros Hall.
  epose proof (Hall Html.dom empty_heading [] "h2.a-size-mini span"
                 (tl name_selectors) _ "Lamp" (Forall_nil _)
                 eq_refl eq_refl) as Hlamp.
  discriminate Hlamp.
Qed.

Lemma find_text_first_with_text_witness :
  Forall (no_text empty_heading) ["h2.a-size-mini span"; "h2 a span"]
  /\ find_text_by_selectors empty_heading name_selectors = Some "Lamp".
Proof.
  assert (Hpre : Forall (no_text empty_heading)
                   ["h2.a-size-mini span"; "h2 a span"]).
  { repeat constructor. }
  split; [exact Hpre|].
  epose proof (find_text_first_with_text empty_heading
                 ["h2.a-size-mini span"; "h2 a span"] ".a-size-base-plus"
                 (skipn 3 name_selectors) _ Hpre eq_refl eq_refl) as Hlamp.
  exact Hlamp.
Defined.

(** In [link_without_href] the second link pattern finds an anchor
    without [href], and the fourth one would find an anchor with one:
    the record "Desk" is returned, and its link is empty. *)
Lemma find_element_earliest_match_witness :
  select_one link_without_href "h2.a-size-mini a" = None
  /\ (exists element, select_one link_without_href "h2 a" = Some element
                      /\ get element "href" = None)
  /\ (exists element,
         select_one link_without_href
           (".a-link-normal[href*=" ++ quoted "/dp/" ++ "]") = Some element
         /\ get element "href" = Some "/dp/B02")
  /\ find_text_by_selectors link_without_href name_selectors = Some "Desk"
  /\ strip "Desk" <> ""
  /\ (exists product,
         extract_product_info AmazonScraper_init link_without_href
         = Some product
         /\ productName product = Some "Desk"
         /\ link product = "").
Proof.
  split; [reflexivity|].
  split; [eexists; split; reflexivity|].
  split; [eexists; split; reflexivity|].
  split; [reflexivity|].
  split; [discriminate|].
  assert (Hpre : Forall (fun q => select_one link_without_href q = None)
                   ["h2.a-size-mini a"]).
  { repeat constructor. }
  assert (Hname : strip "Desk" <> "") by discriminate.
  epose proof (proj2 (proj2 find_element_earliest_match) AmazonScraper_init
                 link_without_href ["h2.a-size-mini a"] "h2 a"
                 (skipn 2 link_selectors) _ "Desk" eq_refl
                 Hpre eq_refl eq_refl eq_refl Hname)
    as Hlink.
  exact Hlink.
Defined.

End LocatorOnDocuments.

(** ** Record extractor *)

Section Extractor.

Context `{Dom}.

Lemma length_pos_nonempty s :
  (0 <? String.length s)%nat = true <-> s <> "".
Proof.
  destruct s; simpl; split; intros Hs;
    (reflexivity || discriminate || now elim Hs).
Qed.

(** C7: a container yields a record exactly when a name is located and
    is not blank after stripping; a blank name is rejected whatever the
    other fields hold, and a missing price, link or image is filled
    with the sentinel or the empty string. *)
Theorem extract_accepts_on_name self container :
  ((exists product, extract_product_info self container = Some product)
   <-> (exists name,
           find_text_by_selectors container name_selectors = Some name
           /\ strip name <> ""))
  /\ (forall name,
         find_text_by_selectors container name_selectors = Some name ->
         strip name = "" ->
         extract_product_info self container = None)
  /\ (forall name,
         find_text_by_selectors container name_selectors = Some name ->
         strip name <> "" ->
         exists product,
           extract_product_info self container = Some product
           /\ productName product = Some name
           /\ (find_text_by_selectors container price_selectors = None ->
               price product = "Price not available")
           /\ (find_element_by_selectors container link_selectors = None ->
               link product = "")
           /\ (find_element_by_selectors container img_selectors = None ->
               image_url product = "")).
Proof.
  split; [|split].
  - unfold extract_product_info. cbn [productName].
    destruct (find_text_by_selectors container name_selectors) as [name|].
    + destruct (0 <? String.length (strip name))%nat eqn:Hlen.
      * split; [|intros _; eauto].
        intros _. exists name. split; [reflexivity|].
        now apply length_pos_nonempty.
      * split; [intros [product Hp]; discriminate|].
        intros (name' & [= <-] & Hne).
        apply length_pos_nonempty in Hne. congruence.
    + split; [intros [product Hp]; discriminate|].
      intros (name & Hn & _). discriminate.
  - intros name Hname Hblank. unfold extract_product_info.
    cbn [productName]. rewrite Hname, Hblank. reflexivity.
  - intros name Hname Hne. unfold extract_product_info.
    cbn [productName]. rewrite Hname.
    apply length_pos_nonempty in Hne. rewrite Hne.
    eexists. split; [reflexivity|]. cbn [productName price link image_url].
    repeat split; intros ->; reflexivity.
Qed.

End Extractor.

Section ExtractorOnDocuments.

Import Fixture.

(** [name_only] holds a name and nothing else: it is accepted, with the
    sentinel for its price and empty strings for link and image. *)
Lemma extract_accepts_on_name_witness :
  find_text_by_selectors name_only name_selectors = Some "Chair"
  /\ strip "Chair" <> ""
  /\ find_text_by_selectors name_only price_selectors = None
  /\ find_element_by_selectors name_only link_selectors = None
  /\ find_element_by_selectors name_only img_selectors = None
  /\ exists product,
       extract_product_info AmazonScraper_init name_only = Some product
       /\ productName product = Some "Chair"
       /\ price product = "Price not available"
       /\ link product = ""
       /\ image_url product = "".
Proof.
  repeat (split; [reflexivity || discriminate|]).
  destruct (proj2 (proj2 (extract_accepts_on_name AmazonScraper_init name_only))
              "Chair" eq_refl)
    as (product & Hex & Hname & Hprice & Hlink & Himg); [discriminate|].
  exists product. repeat split; auto.
Defined.

(** A container with price, link and image whose name is blank is
    rejected. *)
Example extract_blank_name :
  find_text_by_selectors blank_name price_selectors = Some "499"
  /\ extract_product_info AmazonScraper_init blank_name = None.
Proof. split; reflexivity. Qed.

End ExtractorOnDocuments.

(** ** Fetch client *)

Section FetchClient.

Context `{Dom}.

Lemma gets_app e1 e2 : gets (e1 ++ e2) = (gets e1 + gets e2)%nat.
Proof. unfold gets. now rewrite filter_app, length_app. Qed.

(** One turn of the loop on a reply that is not a success: the reply is
    used up, one request is sent, and the loop goes on. *)
Lemma make_request_loop_retry url retries attempt rest reply rs t :
  is_ok reply = false ->
  exists events,
    gets events = 1%nat
    /\ make_request_loop url retries (attempt :: rest)
         {| replies := reply :: rs; trace := t |}
       = make_request_loop url retries rest
           {| replies := rs; trace := t ++ events |}.
Proof.
  intros Hbad. run_turn.
  destruct (attempt =? 0)%Z; cbn [replies trace];
    (destruct reply as [response|]; cbn [is_ok] in Hbad;
     [ rewrite Hbad; destruct (status_code response =? 429)%Z
     | destruct (attempt <? retries - 1)%Z ]);
    cbn [replies trace]; close_turn.
Qed.

(** The same turn when the transport has no reply left. *)
Lemma make_request_loop_silent url retries attempt rest t :
  exists events,
    gets events = 1%nat
    /\ make_request_loop url retries (attempt :: rest)
         {| replies := []; trace := t |}
       = make_request_loop url retries rest
           {| replies := []; trace := t ++ events |}.
Proof.
  run_turn.
  destruct (attempt =? 0)%Z; cbn [replies trace];
    destruct (attempt <? retries - 1)%Z; cbn [replies trace]; close_turn.
Qed.

Lemma make_request_loop_success url retries pre :
  forall attempts response post t,
    Forall (fun reply => is_ok reply = false) pre ->
    status_code response = 200%Z ->
    (List.length pre < List.length attempts)%nat ->
    exists events,
      gets events = S (List.length pre)
      /\ make_request_loop url retries attempts
           {| replies := pre ++ Returns response :: post; trace := t |}
         = (Some response, {| replies := post; trace := t ++ events |}).
Proof.
  induction pre as [|reply pre IH]; intros attempts response post t Hpre Hok Hlen.
  - destruct attempts as [|attempt rest]; [inversion Hlen|].
    cbn [app]. run_turn.
    destruct (attempt =? 0)%Z; cbn [replies trace];
      rewrite Hok; cbn [Z.eqb Pos.eqb]; close_turn.
  - destruct attempts as [|attempt rest]; [inversion Hlen|].
    inversion Hpre as [|? ? Hbad Hpre']; subst.
    destruct (make_request_loop_retry url retries attempt rest reply
                (pre ++ Returns response :: post) t Hbad)
      as (ev1 & Hg1 & Hstep).
    cbn [app]. rewrite Hstep.
    destruct (IH rest response post (t ++ ev1)%list Hpre' Hok) as (ev2 & Hg2 & Hrun).
    { cbn [List.length] in Hlen. lia. }
    exists (ev1 ++ ev2)%list. split.
    + rewrite gets_app, Hg1, Hg2. reflexivity.
    + rewrite Hrun, app_assoc. reflexivity.
Qed.

Lemma make_request_loop_exhausted url retries attempts :
  forall rs t,
    Forall (fun reply => is_ok reply = false)
           (firstn (List.length attempts) rs) ->
    exists events,
      gets events = List.length attempts
      /\ make_request_loop url retries attempts
           {| replies := rs; trace := t |}
         = (None, {| replies := skipn (List.length attempts) rs;
                     trace := t ++ events |}).
Proof.
  induction attempts as [|attempt rest IH]; intros rs t Hbad.
  - exists []. split; [reflexivity|]. cbn. now rewrite app_nil_r.
  - destruct rs as [|reply rs].
    + destruct (make_request_loop_silent url retries attempt rest t)
        as (ev1 & Hg1 & Hstep).
      rewrite Hstep.
      destruct (IH [] (t ++ ev1)%list) as (ev2 & Hg2 & Hrun).
      { rewrite firstn_nil. constructor. }
      exists (ev1 ++ ev2)%list. split.
      * rewrite gets_app, Hg1, Hg2. reflexivity.
      * rewrite Hrun, app_assoc, skipn_nil. reflexivity.
    + cbn [List.length firstn] in Hbad.
      inversion Hbad as [|? ? Hr Hbad']; subst.
      destruct (make_request_loop_retry url retries attempt rest reply rs t Hr)
        as (ev1 & Hg1 & Hstep).
      rewrite Hstep.
      destruct (IH rs (t ++ ev1)%list Hbad') as (ev2 & Hg2 & Hrun).
      exists (ev1 ++ ev2)%list. split.
      * rewrite gets_app, Hg1, Hg2. reflexivity.
      * rewrite Hrun, app_assoc. reflexivity.
Qed.

Lemma length_range n : List.length (range n) = Z.to_nat n.
Proof. unfold range. now rewrite length_map, length_seq. Qed.

(** C6: on the replies 429, 500, 200 three attempts return the third
    reply and two attempts return [None]; in general the first reply
    with status 200 is returned at once, nothing being sent after it,
    when it comes within [retries] attempts, and [None] is returned
    when none of the [retries] attempts is answered with status 200. *)
Theorem make_request_outcomes self url :
  (forall c1 c2 c3,
      make_request self url 3
        {| replies := [Returns {| status_code := 429; content := c1 |};
                       Returns {| status_code := 500; content := c2 |};
                       Returns {| status_code := 200; content := c3 |}];
           trace := [] |}
      = (Some {| status_code := 200; content := c3 |},
         {| replies := [];
            trace := [UpdateHeaders; Sleep 2.0 5.0; Get url; Sleep 10.0 20.0;
                      UpdateHeaders; Sleep 5.0 10.0; Get url;
                      UpdateHeaders; Sleep 5.0 10.0; Get url] |}))
  /\ (forall c1 c2 c3,
         make_request self url 2
           {| replies := [Returns {| status_code := 429; content := c1 |};
                          Returns {| status_code := 500; content := c2 |};
                          Returns {| status_code := 200; content := c3 |}];
              trace := [] |}
         = (None,
            {| replies := [Returns {| status_code := 200; content := c3 |}];
               trace := [UpdateHeaders; Sleep 2.0 5.0; Get url;
                         Sleep 10.0 20.0;
                         UpdateHeaders; Sleep 5.0 10.0; Get url] |}))
  /\ (forall retries pre response post t,
         Forall (fun reply => is_ok reply = false) pre ->
         status_code response = 200%Z ->
         (Z.of_nat (List.length pre) < retries)%Z ->
         exists events,
           gets events = S (List.length pre)
           /\ make_request self url retries
                {| replies := pre ++ Returns response :: post; trace := t |}
              = (Some response,
                 {| replies := post; trace := t ++ events |}))
  /\ (forall retries rs t,
         Forall (fun reply => is_ok reply = false)
                (firstn (Z.to_nat retries) rs) ->
         exists events,
           gets events = Z.to_nat retries
           /\ make_request self url retries {| replies := rs; trace := t |}
              = (None,
                 {| replies := skipn (Z.to_nat retries) rs;
                    trace := t ++ events |})).
Proof.
  split; [reflexivity|]. split; [reflexivity|]. split.
  - intros retries pre response post t Hpre Hok Hlen. unfold make_request.
    apply make_request_loop_success; [assumption | assumption |].
    rewrite length_range. lia.
  - intros retries rs t Hbad. unfold make_request.
    rewrite <- (length_range retries) in *.
    now apply make_request_loop_exhausted.
Qed.

(** C9: with [retries] zero or negative the loop has no turn: [None] is
    returned and the world is as it was, no request sent and no wait
    taken. *)
Theorem make_request_no_attempt self url retries w :
  (retries <= 0)%Z -> make_request self url retries w = (None, w).
Proof.
  intros Hle. unfold make_request, range.
  replace (Z.to_nat retries) with 0%nat by lia. reflexivity.
Qed.

End FetchClient.

Section FetchClientOnDocuments.

Import Fixture.

Lemma make_request_outcomes_witness :
  exists events,
    gets events = 2%nat
    /\ make_request AmazonScraper_init "https://www.amazon.in/s?k=toys" 3
         (fresh [RequestException; ok one_result; ok no_result])
       = (Some {| status_code := 200; content := one_result |},
          {| replies := [ok no_result]; trace := events |}).
Proof.
  apply (proj1 (proj2 (proj2
           (make_request_outcomes AmazonScraper_init
              "https://www.amazon.in/s?k=toys")))
           3%Z [RequestException] {| status_code := 200; content := one_result |}
           [ok no_result] []);
    [repeat constructor | reflexivity | reflexivity].
Defined.

Lemma make_request_no_attempt_witness :
  (-1 <= 0)%Z
  /\ make_request AmazonScraper_init "https://www.amazon.in/s?k=toys" (-1)
       (fresh [ok one_result])
     = (None, fresh [ok one_result]).
Proof.
  split; [discriminate|].
  apply (make_request_no_attempt AmazonScraper_init
           "https://www.amazon.in/s?k=toys" (-1)%Z (fresh [ok one_result])).
  discriminate.
Defined.

End FetchClientOnDocuments.

(** ** Batch extraction *)

Section Batch.

Context `{Dom}.

Lemma strip_nonempty s : strip s <> "" -> truthy s = true.
Proof. destruct s; [intros Hs; now elim Hs | reflexivity]. Qed.

(** A record that [extract_product_info] returns passes the test that
    [parse_product_data] repeats on it. *)
Lemma extracted_has_name self container product :
  extract_product_info self container = Some product ->
  has_name (Some product) = true.
Proof.
  unfold extract_product_info. cbn [productName].
  destruct (find_text_by_selectors container name_selectors) as [name|];
    [|discriminate].
  destruct (0 <? String.length (strip name))%nat eqn:Hlen; [|discriminate].
  intros Heq. injection Heq as Heq. rewrite <- Heq.
  cbn [has_name productName]. apply strip_nonempty.
  now apply length_pos_nonempty.
Qed.

Lemma after_pauses_plus n m w :
  after_pauses m (after_pauses n w) = after_pauses (n + m) w.
Proof.
  unfold after_pauses. cbn [replies trace].
  now rewrite repeat_app, app_assoc.
Qed.

Lemma parse_containers_spec self containers :
  forall products w,
    parse_containers self containers products w
    = ((products ++ accepted self containers)%list,
       after_pauses (List.length (accepted self containers)) w).
Proof.
  induction containers as [|container rest IH]; intros products w.
  - cbn. rewrite app_nil_r. unfold after_pauses. cbn [repeat].
    rewrite app_nil_r. now destruct w.
  - cbn [parse_containers accepted flat_map].
    destruct (extract_product_info self container) as [product|] eqn:Hex.
    + rewrite (extracted_has_name _ _ _ Hex).
      unfold bind, human_delay, emit. rewrite IH.
      fold (accepted self rest). rewrite <- app_assoc. cbn [app List.length].
      f_equal. change (S (List.length (accepted self rest)))
        with (1 + List.length (accepted self rest))%nat.
      rewrite <- after_pauses_plus. reflexivity.
    + rewrite IH. reflexivity.
Qed.

Lemma parse_selectors_skip self soup pre rest w :
  Forall (fun selector => yield self soup selector = []) pre ->
  parse_selectors self soup (pre ++ rest) [] w
  = parse_selectors self soup rest [] w.
Proof.
  induction 1 as [|selector pre Hy _ IH]; [reflexivity|].
  cbn [app parse_selectors]. unfold bind.
  rewrite parse_containers_spec. fold (yield self soup selector).
  rewrite Hy. cbn [app List.length].
  replace (after_pauses 0 w) with w; [exact IH|].
  unfold after_pauses. cbn [repeat]. rewrite app_nil_r. now destruct w.
Qed.

(** C1 (amended): the batch is what the first container strategy with
    at least one accepted record yields, one short wait being taken for
    each record, and the strategies after it have no say in it; a
    strategy whose containers are all rejected is passed over like one
    without containers; the batch is empty when no strategy yields a
    record. *)
Theorem parse_product_data_first_yield self soup w :
  (forall pre selector post,
      product_selectors = (pre ++ selector :: post)%list ->
      Forall (fun q => yield self soup q = []) pre ->
      yield self soup selector <> [] ->
      parse_product_data self soup w
      = (yield self soup selector,
         after_pauses (List.length (yield self soup selector)) w))
  /\ (Forall (fun q => yield self soup q = []) product_selectors ->
      parse_product_data self soup w = ([], w)).
Proof.
  split.
  - intros pre selector post Hsel Hpre Hy. unfold parse_product_data.
    rewrite Hsel, parse_selectors_skip by assumption.
    cbn [parse_selectors]. unfold bind.
    rewrite parse_containers_spec. fold (yield self soup selector).
    cbn [app]. destruct (yield self soup selector); [now elim Hy|].
    reflexivity.
  - intros Hall. unfold parse_product_data.
    rewrite <- (app_nil_r product_selectors) at 1.
    rewrite parse_selectors_skip by assumption. reflexivity.
Qed.

End Batch.

Section BatchOnDocuments.

Import Fixture.

(** C1, as stated, fails: on the page [empty_result_then_widget] the
    first strategy matches one container, which is rejected, and the
    batch holds the record that the fourth strategy yields. *)
Lemma parse_product_data_falls_through :
  ~ (forall (D : Dom) (self : AmazonScraper) (soup : Tag) (w : World),
        select soup (hd "" product_selectors) <> [] ->
        (forall container,
            In container (select soup (hd "" product_selectors)) ->
            extract_product_info self container = None) ->
        fst (parse_product_data self soup w) = []).
Proof.
  intros Hall.
  specialize (Hall Html.dom AmazonScraper_init
                (BeautifulSoup empty_result_then_widget) (fresh [])).
  assert (Hbatch : fst (parse_product_data AmazonScraper_init
                          (BeautifulSoup empty_result_then_widget)
                          (fresh [])) = []).
  { apply Hall.
    - discriminate.
    - intros container [<-|[]]. reflexivity. }
  discriminate Hbatch.
Qed.

Lemma parse_product_data_first_yield_witness :
  parse_product_data AmazonScraper_init
    (BeautifulSoup empty_result_then_widget) (fresh [])
  = ([{| productName := Some "Kettle";
         price := "Price not available";
         link := "https://www.amazon.in/dp/B01";
         image_url := "" |}],
     {| replies := []; trace := [Sleep 0.1 0.5] |}).
Proof.
  apply (proj1 (parse_product_data_first_yield AmazonScraper_init
                  (BeautifulSoup empty_result_then_widget) (fresh []))
           (firstn 3 product_selectors)
           ("[data-cel-widget*=" ++ quoted "search_result" ++ "]")
           (skipn 4 product_selectors));
    [reflexivity | repeat constructor | discriminate].
Defined.

End BatchOnDocuments.

(** ** Search orchestrator *)

Section Orchestrator.

Context `{Dom}.

Lemma scrape_fallback_loop_skip self pre :
  forall rest all_products w,
    all_empty self pre w ->
    scrape_fallback_loop self (pre ++ rest) all_products w
    = scrape_fallback_loop self rest all_products (after_empty self pre w).
Proof.
  induction pre as [|q pre IH]; intros rest all_products w Hpre;
    [reflexivity|].
  destruct Hpre as [Hq Hpre].
  cbn [app scrape_fallback_loop after_empty]. unfold bind at 1.
  destruct (scrape_amazon_search self q w) as [products w1].
  cbn [fst snd] in *. subst products. unfold bind at 1.
  destruct (human_delay 3.0 7.0 w1) as [[] w2]. cbn [snd] in *.
  now apply IH.
Qed.

(** C5: the result is the batch of the first search term whose batch is
    not empty, and the world is left as that search left it, so no
    term after it is tried; when every term comes back empty the result
    is the empty list, an ordinary return value. *)
Theorem scrape_with_fallback_first_success self w :
  (forall pre q post,
      search_terms self = (pre ++ q :: post)%list ->
      all_empty self pre w ->
      fst (scrape_amazon_search self q (after_empty self pre w)) <> [] ->
      scrape_with_fallback self w
      = scrape_amazon_search self q (after_empty self pre w))
  /\ (all_empty self (search_terms self) w ->
      fst (scrape_with_fallback self w) = []).
Proof.
  unfold scrape_with_fallback. split.
  - intros pre q post Hterms Hpre Hq.
    rewrite Hterms, scrape_fallback_loop_skip by assumption.
    cbn [scrape_fallback_loop]. unfold bind.
    destruct (scrape_amazon_search self q (after_empty self pre w))
      as [products w1].
    cbn [fst] in Hq. destruct products; [now elim Hq | reflexivity].
  - intros Hall. rewrite <- (app_nil_r (search_terms self)).
    rewrite scrape_fallback_loop_skip by assumption. reflexivity.
Qed.

End Orchestrator.

Section OrchestratorOnDocuments.

Import Fixture.

(** The terms "a", "b", "c": "a" finds nothing, "b" finds three
    records, and the reply kept for "c" is never asked for. *)
Lemma scrape_with_fallback_first_success_witness :
  scrape_with_fallback
    {| base_url := "https://www.amazon.in"; search_terms := ["a"; "b"; "c"] |}
    (fresh [ok no_result; ok three_results; ok one_result])
  = ([{| productName := Some "Novel";
         price := "$299";
         link := "https://www.amazon.in/dp/B11";
         image_url := "" |};
      {| productName := Some "Atlas";
         price := "Price not available";
         link := "https://www.amazon.in/dp/B12";
         image_url := "" |};
      {| productName := Some "Diary";
         price := "Price not available";
         link := "https://www.amazon.in/dp/B13";
         image_url := "https://m.media-amazon.com/d.jpg" |}],
     {| replies := [ok one_result];
        trace := [UpdateHeaders; Sleep 2.0 5.0;
                  Get "https://www.amazon.in/s?k=a&ref=sr_pg_1";
                  Sleep 3.0 7.0;
                  UpdateHeaders; Sleep 2.0 5.0;
                  Get "https://www.amazon.in/s?k=b&ref=sr_pg_1";
                  Sleep 0.1 0.5; Sleep 0.1 0.5; Sleep 0.1 0.5] |}).
Proof.
  etransitivity.
  - apply (proj1 (scrape_with_fallback_first_success
                    {| base_url := "https://www.amazon.in";
                       search_terms := ["a"; "b"; "c"] |}
                    (fresh [ok no_result; ok three_results; ok one_result]))
             ["a"] "b" ["c"]).
    + reflexivity.
    + split; [reflexivity | exact I].
    + vm_compute. discriminate.
  - reflexivity.
Defined.

End OrchestratorOnDocuments.

(** ** Request handler and link prefix *)

Section Handler.

Context `{Dom}.

(** The three cases of the link entry: a relative [href] gets the
    prefix written in [extract_product_info], an [href] that starts
    with "http" is kept, and without an element or an [href] the entry
    is the empty string. *)
Lemma product_link_cases :
  (forall element href,
      get element "href" = Some href -> truthy href = true ->
      startswith href "http" = false ->
      product_link (Some element) = "https://www.amazon.in" ++ href)
  /\ (forall element href,
         get element "href" = Some href -> startswith href "http" = true ->
         product_link (Some element) = href)
  /\ product_link None = ""
  /\ (forall element,
         get element "href" = None -> product_link (Some element) = "").
Proof.
  unfold product_link. repeat split.
  - intros element href -> -> ->. reflexivity.
  - intros element href -> Hhttp. rewrite Hhttp.
    destruct href; [discriminate|reflexivity].
  - intros element ->. reflexivity.
Qed.

(** A country outside the table: the [try] block raises status 400,
    and the handler answers with status 500; the world is untouched. *)
Lemma search_products_unknown_country request w :
  dict_get country_domains (country request) = None ->
  search_products_try request w
  = (inl (HTTPException 400
            ("Unsupported country code: " ++ country request)), w)
  /\ search_products request w
     = (inl (HTTPException 500
               ("400: Unsupported country code: " ++ country request)), w).
Proof.
  intros Hnone. unfold search_products, bind, search_products_try.
  rewrite Hnone. split; reflexivity.
Qed.

(** C2: for the country code "ZZ" no request is sent, but the status
    400 raised in the [try] block is caught by the handler's own
    [except Exception] clause, and the client is answered with 500. *)
Theorem search_products_ZZ q w :
  search_products {| country := "ZZ"; query := q |} w
  = (inl (HTTPException 500 "400: Unsupported country code: ZZ"), w).
Proof. reflexivity. Qed.

End Handler.

Section HandlerOnDocuments.

Import Fixture.

(** C3: for the country "US" the search goes to www.amazon.com, and
    the relative link of the record found there is prefixed with
    www.amazon.in. *)
Theorem search_products_US_link :
  search_products {| country := "US"; query := "lamp" |}
    (fresh [ok one_result])
  = (inr [{| productName := Some "Lamp";
             price := "Price not available";
             link := "https://www.amazon.in/dp/B03";
             image_url := "" |}],
     {| replies := [];
        trace := [UpdateHeaders; Sleep 2.0 5.0;
                  Get "https://www.amazon.com/s?k=lamp&ref=sr_pg_1";
                  Sleep 0.1 0.5] |}).
Proof. reflexivity. Qed.

End HandlerOnDocuments.

(** * Further properties of the code *)

(** ** Fetch client: requests and waits *)

Section FetchAccounting.

Context `{Dom}.

Lemma follows_refl w : follows w w [].
Proof. split; [now rewrite app_nil_r | reflexivity]. Qed.

Lemma follows_trans w1 w2 w3 e1 e2 :
  follows w1 w2 e1 -> follows w2 w3 e2 -> follows w1 w3 (e1 ++ e2).
Proof.
  intros [Ht1 Hr1] [Ht2 Hr2]. split.
  - now rewrite Ht2, Ht1, app_assoc.
  - rewrite Hr2, Hr1, gets_app, skipn_skipn. f_equal. apply Nat.add_comm.
Qed.

Lemma requests_to_app url e1 e2 :
  requests_to url e1 -> requests_to url e2 -> requests_to url (e1 ++ e2).
Proof. intros H1 H2. apply Forall_app. now split. Qed.

(** One turn of the retry loop: one request goes out; on a reply with
    status 200 the loop ends with it, otherwise it goes on. *)
Lemma make_request_turn url retries attempt rest rs t :
  exists events,
    gets events = 1%nat
    /\ requests_to url events
    /\ let w' := {| replies := tl rs; trace := t ++ events |} in
       (exists response,
           hd_error rs = Some (Returns response)
           /\ status_code response = 200%Z
           /\ make_request_loop url retries (attempt :: rest)
                {| replies := rs; trace := t |} = (Some response, w'))
       \/ make_request_loop url retries (attempt :: rest)
            {| replies := rs; trace := t |}
          = make_request_loop url retries rest w'.
Proof.
  run_turn.
  destruct (attempt =? 0)%Z; cbn [replies trace];
    (destruct rs as [|[response|] rs']; cbn [replies trace tl hd_error];
     [ destruct (attempt <? retries - 1)%Z
     | destruct (status_code response =? 200)%Z eqn:Hok;
       [ apply Z.eqb_eq in Hok
       | destruct (status_code response =? 429)%Z ]
     | destruct (attempt <? retries - 1)%Z ]);
    cbn [replies trace]; rewrite <- ?app_assoc; cbn [app];
    (eexists; (split; [|split]);
     [ | | first [ right; reflexivity
                 | left; exists response;
                   split; [reflexivity|]; split; [exact Hok|reflexivity] ] ];
     [ reflexivity | repeat constructor ]).
Qed.

Lemma make_request_loop_account url retries attempts :
  forall rs t,
    let w := {| replies := rs; trace := t |} in
    exists events,
      follows w (snd (make_request_loop url retries attempts w)) events
      /\ (gets events <= List.length attempts)%nat
      /\ (attempts <> [] -> 1 <= gets events)%nat
      /\ requests_to url events
      /\ (forall response,
             fst (make_request_loop url retries attempts w) = Some response ->
             status_code response = 200%Z).
Proof.
  induction attempts as [|attempt rest IH]; intros rs t w.
  - exists []. split; [apply follows_refl|]. split; [apply Nat.le_refl|].
    split; [intros Hne; now elim Hne|].
    split; [constructor|]. intros response. discriminate.
  - destruct (make_request_turn url retries attempt rest rs t)
      as (ev1 & Hg1 & Hu1 & Hturn).
    assert (Hstep : follows w {| replies := tl rs; trace := t ++ ev1 |} ev1).
    { split; [reflexivity|]. cbn [replies]. rewrite Hg1. now destruct rs. }
    destruct Hturn as [(response & _ & Hok & Hrun) | Hrun]; subst w; rewrite Hrun.
    + exists ev1. cbn [fst snd]. split; [exact Hstep|].
      split; [rewrite Hg1; cbn; lia|]. split; [rewrite Hg1; lia|].
      split; [exact Hu1|].
      intros r [= <-]. exact Hok.
    + destruct (IH (tl rs) (t ++ ev1)%list)
        as (ev2 & Hf & Hg2 & _ & Hu2 & Hok).
      exists (ev1 ++ ev2)%list.
      split; [exact (follows_trans _ _ _ _ _ Hstep Hf)|].
      split; [rewrite gets_app, Hg1; cbn [List.length]; lia|].
      split; [rewrite gets_app, Hg1; lia|].
      split; [now apply requests_to_app | exact Hok].
Qed.

(** X1: whatever the transport answers, [make_request] sends at most
    [retries] requests, all of them to the given URL, and uses up one
    reply for each. *)
Theorem make_request_bounded self url retries w :
  exists events,
    follows w (snd (make_request self url retries w)) events
    /\ (gets events <= Z.to_nat retries)%nat
    /\ requests_to url events.
Proof.
  destruct w as [rs t]. unfold make_request.
  destruct (make_request_loop_account url retries (range retries) rs t)
    as (events & Hf & Hg & _ & Hu & _).
  exists events. rewrite length_range in Hg. auto.
Qed.

(** X2: a response that [make_request] returns has status 200. *)
Theorem make_request_returns_200 self url retries w response :
  fst (make_request self url retries w) = Some response ->
  status_code response = 200%Z.
Proof.
  destruct w as [rs t]. unfold make_request.
  destruct (make_request_loop_account url retries (range retries) rs t)
    as (events & _ & _ & _ & _ & Hok).
  apply Hok.
Qed.

End FetchAccounting.

Section FetchSchedule.

Context `{Dom}.

(** The later attempts [k], [k+1], ... of a run in which every request
    ends in a transport error. *)
Lemma make_request_loop_errors url rs m :
  forall k t,
    (1 <= k)%nat ->
    make_request_loop url (Z.of_nat (k + m)) (map Z.of_nat (seq k m))
      {| replies := repeat RequestException m ++ rs; trace := t |}
    = (None,
       {| replies := rs;
          trace := (t ++ match m with
                         | O => []
                         | S m' =>
                             [UpdateHeaders; Sleep 5.0 10.0; Get url]
                             ++ List.concat (repeat [Sleep 5.0 10.0; UpdateHeaders;
                                                Sleep 5.0 10.0; Get url] m')
                         end)%list |}).
Proof.
  induction m as [|m IH]; intros k t Hk.
  - cbn. now rewrite app_nil_r.
  - cbn [seq map repeat app]. run_turn.
    replace (Z.of_nat k =? 0)%Z with false by (symmetry; apply Z.eqb_neq; lia).
    cbn [replies trace].
    replace (k + S m)%nat with (S k + m)%nat by lia.
    destruct m as [|m'].
    + replace (Z.of_nat k <? Z.of_nat (S k + 0) - 1)%Z with false
        by (symmetry; apply Z.ltb_ge; lia).
      cbn. rewrite <- !app_assoc. reflexivity.
    + replace (Z.of_nat k <? Z.of_nat (S k + S m') - 1)%Z with true
        by (symmetry; apply Z.ltb_lt; lia).
      cbn [replies trace]. rewrite IH by lia.
      rewrite <- !app_assoc. reflexivity.
Qed.

(** X3: when each of the [retries] attempts ends in a transport error,
    [None] is returned after [retries] requests; between two requests
    there are two waits of 5 to 10 seconds (the one after the error and
    the one before the retry), and no wait follows the last error. *)
Theorem make_request_transport_errors self url n rs t :
  make_request self url (Z.of_nat (S n))
    {| replies := repeat RequestException (S n) ++ rs; trace := t |}
  = (None,
     {| replies := rs;
        trace := (t ++ [UpdateHeaders; Sleep 2.0 5.0; Get url]
                  ++ List.concat (repeat [Sleep 5.0 10.0; UpdateHeaders;
                                     Sleep 5.0 10.0; Get url] n))%list |}).
Proof.
  unfold make_request, range. rewrite Nat2Z.id.
  cbn [seq map repeat app]. run_turn.
  change (Z.of_nat 0) with 0%Z. cbn [Z.eqb replies trace].
  destruct n as [|n'].
  - cbn. rewrite <- !app_assoc. reflexivity.
  - replace (0 <? Z.of_nat (S (S n')) - 1)%Z with true
      by (symmetry; apply Z.ltb_lt; lia).
    cbn [replies trace].
    pose proof (make_request_loop_errors url rs (S n') 1) as Hrest.
    cbn [Nat.add] in Hrest. rewrite Hrest by lia.
    rewrite <- !app_assoc. reflexivity.
Qed.

(** The later attempts of a run in which every reply has status 429. *)
Lemma make_request_loop_limited url retries rs bodies :
  forall attempts t,
    List.length attempts = List.length bodies ->
    Forall (fun attempt => attempt <> 0%Z) attempts ->
    make_request_loop url retries attempts
      {| replies :=
           map (fun body => Returns {| status_code := 429; content := body |})
               bodies ++ rs;
         trace := t |}
    = (None,
       {| replies := rs;
          trace := (t ++ List.concat (repeat [UpdateHeaders; Sleep 5.0 10.0;
                                         Get url; Sleep 10.0 20.0]
                                        (List.length bodies)))%list |}).
Proof.
  induction bodies as [|body bodies IH]; intros attempts t Hlen Hpos.
  - destruct attempts; [|discriminate]. cbn. now rewrite app_nil_r.
  - destruct attempts as [|attempt rest]; [discriminate|].
    inversion Hpos as [|? ? Hne Hrest]; subst.
    cbn [map app List.length repeat List.concat]. run_turn.
    replace (attempt =? 0)%Z with false by (symmetry; now apply Z.eqb_neq).
    cbn [replies trace status_code Z.eqb Pos.eqb].
    rewrite IH by (cbn in Hlen; auto; lia).
    rewrite <- !app_assoc. reflexivity.
Qed.

(** X4: when every reply has status 429, each request, the last one
    too, is followed by the wait of 10 to 20 seconds before [None] is
    returned. *)
Theorem make_request_rate_limited self url body bodies rs t :
  make_request self url (Z.of_nat (S (List.length bodies)))
    {| replies :=
         map (fun b => Returns {| status_code := 429; content := b |})
             (body :: bodies) ++ rs;
       trace := t |}
  = (None,
     {| replies := rs;
        trace := (t ++ [UpdateHeaders; Sleep 2.0 5.0; Get url;
                        Sleep 10.0 20.0]
                  ++ List.concat (repeat [UpdateHeaders; Sleep 5.0 10.0; Get url;
                                     Sleep 10.0 20.0]
                                    (List.length bodies)))%list |}).
Proof.
  unfold make_request, range. rewrite Nat2Z.id.
  cbn [seq map app]. run_turn.
  change (Z.of_nat 0) with 0%Z. cbn [status_code Z.eqb Pos.eqb replies trace].
  rewrite make_request_loop_limited.
  - rewrite <- !app_assoc. reflexivity.
  - now rewrite length_map, length_seq.
  - apply Forall_forall. intros a Ha. apply in_map_iff in Ha as (i & <- & Hi).
    apply in_seq in Hi. lia.
Qed.

End FetchSchedule.

(** ** Field locator: where a result comes from *)

Section LocatorResults.

Context `{Dom}.

(** X5: a text that [find_text_by_selectors] returns is not empty and
    is the text of the first match of one of the patterns; [None] is
    returned exactly when every pattern has no match or a match without
    text. *)
Theorem find_text_by_selectors_result container selectors :
  (forall text,
      find_text_by_selectors container selectors = Some text ->
      truthy text = true
      /\ exists selector element,
           In selector selectors
           /\ select_one container selector = Some element
           /\ get_text element = text)
  /\ (find_text_by_selectors container selectors = None
      <-> Forall (no_text container) selectors).
Proof.
  induction selectors as [|selector rest [IHsome IHnone]].
  - split; [discriminate|]. split; [constructor|reflexivity].
  - cbn [find_text_by_selectors].
    destruct (select_one container selector) as [element|] eqn:Hsel.
    + destruct (truthy (get_text element)) eqn:Htext.
      * split.
        -- intros text [= <-]. split; [exact Htext|].
           exists selector, element. cbn [In]. auto.
        -- split; [discriminate|].
           intros Hall. inversion Hall as [|? ? Hno _]; subst.
           unfold no_text in Hno. rewrite Hsel in Hno.
           rewrite Hno in Htext. discriminate.
      * split.
        -- intros text Hfind. destruct (IHsome text Hfind)
             as (Hne & s & e & Hin & Hs & He).
           split; [exact Hne|]. exists s, e. cbn [In]. auto.
        -- rewrite IHnone. split.
           ++ intros Hall. constructor; [|exact Hall].
              unfold no_text. rewrite Hsel. now apply truthy_false.
           ++ intros Hall. now inversion Hall.
    + split.
      * intros text Hfind. destruct (IHsome text Hfind)
          as (Hne & s & e & Hin & Hs & He).
        split; [exact Hne|]. exists s, e. cbn [In]. auto.
      * rewrite IHnone. split.
        -- intros Hall. constructor; [|exact Hall].
           unfold no_text. now rewrite Hsel.
        -- intros Hall. now inversion Hall.
Qed.

(** X6: an element that [find_element_by_selectors] returns is the
    first match of one of the patterns; [None] is returned exactly when
    no pattern has a match. *)
Theorem find_element_by_selectors_result container selectors :
  (forall element,
      find_element_by_selectors container selectors = Some element ->
      exists selector,
        In selector selectors /\ select_one container selector = Some element)
  /\ (find_element_by_selectors container selectors = None
      <-> Forall (fun selector => select_one container selector = None)
                 selectors).
Proof.
  induction selectors as [|selector rest [IHsome IHnone]].
  - split; [discriminate|]. split; [constructor|reflexivity].
  - cbn [find_element_by_selectors].
    destruct (select_one container selector) as [found|] eqn:Hsel.
    + split.
      * intros element [= <-]. exists selector. cbn [In]. auto.
      * split; [discriminate|].
        intros Hall. inversion Hall as [|? ? Hno _]; subst. congruence.
    + split.
      * intros element Hfind. destruct (IHsome element Hfind) as (s & Hin & Hs).
        exists s. cbn [In]. auto.
      * rewrite IHnone. split.
        -- intros Hall. now constructor.
        -- intros Hall. now inversion Hall.
Qed.

End LocatorResults.

(** ** Record extractor: what an accepted record holds *)

Section RecordInvariants.

Context `{Dom}.

(** X7: the link of an accepted record is empty or starts with
    "http". *)
Theorem extract_link_empty_or_absolute self container product :
  extract_product_info self container = Some product ->
  link product = "" \/ startswith (link product) "http" = true.
Proof.
  intros Hex. apply extract_product_info_Some in Hex as (_ & _ & -> & _).
  unfold product_link.
  destruct (find_element_by_selectors container link_selectors) as [element|];
    [|now left].
  destruct (get element "href") as [href|]; [|now left].
  destruct (truthy href); [|now left].
  right. destruct (startswith href "http") eqn:Hhttp; [exact Hhttp|].
  reflexivity.
Qed.

(** X8: the price of an accepted record is never empty: it is the
    sentinel, or a stripped text that starts with the currency sign. *)
Theorem extract_price_sentinel_or_amount self container product :
  extract_product_info self container = Some product ->
  price product = "Price not available"
  \/ (truthy (price product) = true
      /\ strip (price product) = price product
      /\ startswith (price product) "$" = true).
Proof.
  intros Hex. apply extract_product_info_Some in Hex as (_ & -> & _).
  destruct (find_text_by_selectors container price_selectors) as [text|];
    [|now left].
  destruct (truthy text); [|now left].
  apply clean_price_shape.
Qed.

End RecordInvariants.

(** ** Price sanitising: what is removed and what is kept *)

Section CleanPriceFacts.

Import PyFacts.

Lemma startswith_nil s : startswith s "" = true.
Proof. now destruct s. Qed.

Lemma rstrip_cons c s :
  isspace c = false -> rstrip (String c s) = String c (rstrip s).
Proof. intros Hc. simpl. rewrite Hc. now destruct (rstrip s). Qed.

Lemma rstrip_nil_lstrip s : rstrip s = "" -> lstrip s = "".
Proof.
  induction s as [|c s IH]; [reflexivity|]. simpl.
  destruct (rstrip s); [|discriminate].
  destruct (isspace c); [intros _; now apply IH | discriminate].
Qed.

(** White space in front of a text stays where it is when the label is
    removed, and is stripped afterwards. *)
Lemma strip_replace_lstrip t :
  strip (replace (rstrip t) "Price:" "")
  = strip (replace (rstrip (lstrip t)) "Price:" "").
Proof.
  induction t as [|c t IH]; [reflexivity|].
  cbn [lstrip]. destruct (isspace c) eqn:Hc; [|reflexivity].
  cbn [rstrip]. destruct (rstrip t) as [|d r] eqn:Hr.
  - rewrite Hc. rewrite (rstrip_nil_lstrip t Hr). reflexivity.
  - rewrite <- IH. unfold replace. cbn [replace_scan startswith].
    assert (Hp : Ascii.eqb c "P" = false).
    { apply Ascii.eqb_neq. intros ->. discriminate Hc. }
    rewrite Hp. cbn [andb]. unfold strip. cbn [lstrip]. now rewrite Hc.
Qed.

(** X9: white space around the input has no effect on the sanitised
    price. *)
Theorem clean_price_strip x : clean_price (strip x) = clean_price x.
Proof.
  unfold clean_price. destruct (truthy x) eqn:Hx.
  - destruct (truthy (strip x)) eqn:Hsx; cbn [negb].
    + now rewrite strip_idem.
    + apply truthy_false in Hsx. rewrite Hsx. reflexivity.
  - apply truthy_false in Hx. subst x. reflexivity.
Qed.

(** X10: a stripped, non-empty text without the label "Price:" is kept
    as it is when it starts with the currency sign, and gets the sign in
    front of it otherwise. *)
Theorem clean_price_of_clean_text t :
  truthy t = true -> strip t = t -> contains t "Price:" = false ->
  clean_price t = if startswith t "$" then t else "$" ++ t.
Proof.
  intros Hne Hs Hc. unfold clean_price. rewrite Hne. cbn [negb].
  rewrite Hs, replace_same.
  rewrite replace_absent by (reflexivity || assumption).
  rewrite Hs, Hne. cbn [andb].
  destruct (startswith t "$"); cbn [negb]; [now rewrite Hne | reflexivity].
Qed.

Lemma clean_price_of_clean_text_witness :
  truthy "1,299.00" = true
  /\ strip "1,299.00" = "1,299.00"
  /\ contains "1,299.00" "Price:" = false
  /\ clean_price "1,299.00" = "$1,299.00".
Proof.
  repeat (split; [reflexivity|]).
  apply (clean_price_of_clean_text "1,299.00"); reflexivity.
Defined.

(** X11: a label "Price:" in front of the input is dropped: the price is
    that of the text after it. *)
Theorem clean_price_drops_label t :
  clean_price ("Price:" ++ t) = clean_price t.
Proof.
  unfold clean_price.
  change (truthy ("Price:" ++ t)) with true. cbn [negb].
  assert (Hstrip : strip ("Price:" ++ t) = "Price:" ++ rstrip t).
  { unfold strip. cbn [append lstrip]. change (isspace "P") with false.
    cbn iota. now rewrite !rstrip_cons by reflexivity. }
  rewrite Hstrip, !replace_same.
  assert (Hlabel : replace ("Price:" ++ rstrip t) "Price:" ""
                   = replace (rstrip t) "Price:" "").
  { unfold replace. cbn [append replace_scan startswith String.length Nat.sub].
    rewrite !Ascii.eqb_refl, startswith_nil. reflexivity. }
  rewrite Hlabel, strip_replace_lstrip.
  destruct (truthy t) eqn:Ht; cbn [negb]; [reflexivity|].
  apply truthy_false in Ht. subst t. reflexivity.
Qed.

End CleanPriceFacts.

(** ** Batch extraction: what a batch holds *)

Section BatchInvariants.

Context `{Dom}.

Lemma after_pauses_0 w : after_pauses 0 w = w.
Proof.
  unfold after_pauses. cbn [repeat]. rewrite app_nil_r. now destruct w.
Qed.

(** The batch is empty or is what one of the strategies yields. *)
Lemma parse_selectors_result self soup selectors :
  forall w,
    exists batch,
      parse_selectors self soup selectors [] w
      = (batch, after_pauses (List.length batch) w)
      /\ (batch = []
          \/ exists selector,
               In selector selectors /\ batch = yield self soup selector).
Proof.
  induction selectors as [|selector rest IH]; intros w.
  - exists []. split; [now rewrite after_pauses_0 | now left].
  - cbn [parse_selectors]. unfold bind. rewrite parse_containers_spec.
    fold (yield self soup selector). cbn [app].
    destruct (yield self soup selector) as [|product more] eqn:Hy.
    + cbn [List.length]. rewrite after_pauses_0.
      destruct (IH w) as (batch & Hrun & Hfrom). exists batch.
      split; [exact Hrun|].
      destruct Hfrom as [Hnil | (s & Hin & Hs)]; [now left|].
      right. exists s. cbn [In]. auto.
    + exists (product :: more). split; [reflexivity|].
      right. exists selector. cbn [In]. auto.
Qed.

Lemma length_accepted self containers :
  (List.length (accepted self containers) <= List.length containers)%nat.
Proof.
  induction containers as [|container rest IH]; [apply Nat.le_refl|].
  cbn [accepted flat_map]. fold (accepted self rest).
  rewrite length_app. destruct (extract_product_info self container);
    cbn [List.length]; lia.
Qed.

Lemma accepted_named self containers :
  Forall (fun product =>
            exists name, productName product = Some name /\ strip name <> "")
         (accepted self containers).
Proof.
  induction containers as [|container rest IH]; [constructor|].
  cbn [accepted flat_map]. fold (accepted self rest).
  apply Forall_app. split; [|exact IH].
  destruct (extract_product_info self container) as [product|] eqn:Hex;
    [|constructor].
  constructor; [|constructor].
  pose proof (extract_product_info_Some _ _ _ Hex) as (Hname & _).
  revert Hex. unfold extract_product_info. cbn [productName].
  destruct (find_text_by_selectors container name_selectors) as [name|];
    [|discriminate].
  destruct (0 <? String.length (strip name))%nat eqn:Hlen; [|discriminate].
  intros _. exists name. split; [exact Hname|].
  now apply length_pos_nonempty.
Qed.

(** X12: a batch never holds more than twenty records, and every
    record in it has a name that is not blank. *)
Theorem parse_product_data_batch self soup w :
  (List.length (fst (parse_product_data self soup w)) <= 20)%nat
  /\ Forall (fun product =>
               exists name,
                 productName product = Some name /\ strip name <> "")
            (fst (parse_product_data self soup w)).
Proof.
  unfold parse_product_data.
  destruct (parse_selectors_result self soup product_selectors w)
    as (batch & -> & Hfrom). cbn [fst].
  destruct Hfrom as [-> | (selector & _ & ->)].
  - split; [cbn; lia | constructor].
  - unfold yield. split; [|apply accepted_named].
    etransitivity; [apply length_accepted|]. apply firstn_le_length.
Qed.

(** X13: the records of a batch all come from one container strategy:
    a batch that is not empty is what one of the five strategies yields,
    never a mix of two. *)
Theorem parse_product_data_one_strategy self soup w :
  fst (parse_product_data self soup w) = []
  \/ exists selector,
       In selector product_selectors
       /\ fst (parse_product_data self soup w) = yield self soup selector.
Proof.
  unfold parse_product_data.
  destruct (parse_selectors_result self soup product_selectors w)
    as (batch & -> & Hfrom). exact Hfrom.
Qed.

(** X14: parsing a page sends no request and uses up no reply; it
    takes one wait of 0.1 to 0.5 seconds for each record of the batch and
    does nothing else. *)
Theorem parse_product_data_only_pauses self soup w :
  snd (parse_product_data self soup w)
  = after_pauses (List.length (fst (parse_product_data self soup w))) w.
Proof.
  unfold parse_product_data.
  destruct (parse_selectors_result self soup product_selectors w)
    as (batch & -> & _). reflexivity.
Qed.

End BatchInvariants.

(** ** Search: requests sent for one term and for the fallback terms *)

Section SearchAccounting.

Context `{Dom}.

Lemma gets_pauses n : gets (repeat (Sleep 0.1 0.5) n) = 0%nat.
Proof. induction n as [|n IH]; [reflexivity | exact IH]. Qed.

Lemma follows_pauses n w :
  follows w (after_pauses n w) (repeat (Sleep 0.1 0.5) n).
Proof. split; [reflexivity | now rewrite gets_pauses]. Qed.

Lemma requests_to_pauses url n : requests_to url (repeat (Sleep 0.1 0.5) n).
Proof.
  apply Forall_forall. intros e He. apply repeat_spec in He. now subst e.
Qed.

Lemma scrape_amazon_search_account self search_term w :
  exists events,
    follows w (snd (scrape_amazon_search self search_term w)) events
    /\ (1 <= gets events <= 3)%nat
    /\ requests_to (search_url self search_term) events.
Proof.
  unfold scrape_amazon_search, bind. fold (search_url self search_term).
  destruct w as [rs t]. unfold make_request.
  destruct (make_request_loop_account (search_url self search_term) 3
              (range 3) rs t) as (ev1 & Hf1 & Hle & Hge & Hu1 & _).
  specialize (Hge ltac:(discriminate)).
  rewrite length_range in Hle. change (Z.to_nat 3) with 3%nat in Hle.
  destruct (make_request_loop (search_url self search_term) 3 (range 3)
              {| replies := rs; trace := t |}) as [[response|] w1];
    cbn [snd] in Hf1.
  - unfold parse_product_data.
    destruct (parse_selectors_result self (BeautifulSoup (content response))
                product_selectors w1) as (batch & -> & _).
    cbn [snd]. exists (ev1 ++ repeat (Sleep 0.1 0.5) (List.length batch))%list.
    split; [exact (follows_trans _ _ _ _ _ Hf1 (follows_pauses _ _))|].
    split; [rewrite gets_app, gets_pauses; lia|].
    apply requests_to_app; [exact Hu1 | apply requests_to_pauses].
  - exists ev1. cbn [snd]. split; [exact Hf1|].
    split; [lia | exact Hu1].
Qed.

(** X15: a search for one term sends at least one and at most three
    requests, all of them to the search URL built from [base_url] and the
    term, and uses up one reply for each. *)
Theorem scrape_amazon_search_requests self search_term w :
  exists events,
    follows w (snd (scrape_amazon_search self search_term w)) events
    /\ (1 <= gets events <= 3)%nat
    /\ requests_to (base_url self ++ "/s?k=" ++ search_term ++ "&ref=sr_pg_1")
                   events.
Proof. apply scrape_amazon_search_account. Qed.

(** X16: when none of the first three replies has status 200, the
    search returns the empty list after three requests, as it does for
    a page without results. *)
Theorem scrape_amazon_search_fetch_failed self search_term w :
  Forall (fun reply => is_ok reply = false) (firstn 3 (replies w)) ->
  fst (scrape_amazon_search self search_term w) = []
  /\ exists events,
       gets events = 3%nat
       /\ follows w (snd (scrape_amazon_search self search_term w)) events.
Proof.
  intros Hbad. unfold scrape_amazon_search, bind, make_request.
  destruct w as [rs t]. cbn [replies] in Hbad.
  destruct (make_request_loop_exhausted
              (base_url self ++ "/s?k=" ++ search_term ++ "&ref=sr_pg_1")
              3 (range 3) rs t Hbad) as (events & Hg & ->).
  cbn [fst snd ret]. split; [reflexivity|].
  exists events. split; [exact Hg|].
  split; [reflexivity|]. cbn [replies]. now rewrite Hg.
Qed.

Lemma scrape_fallback_loop_segments self terms :
  forall w,
    exists segments,
      follows w (snd (scrape_fallback_loop self terms [] w))
              (List.concat segments)
      /\ Forall2 (term_segment self)
                 (firstn (List.length segments) terms) segments
      /\ (List.length segments <= List.length terms)%nat
      /\ (fst (scrape_fallback_loop self terms [] w) = [] ->
          List.length segments = List.length terms).
Proof.
  induction terms as [|term rest IH]; intros w.
  - exists []. split; [apply follows_refl|]. split; [constructor|].
    split; [apply Nat.le_refl | reflexivity].
  - cbn [scrape_fallback_loop List.length]. unfold bind, human_delay, emit.
    destruct (scrape_amazon_search_account self term w)
      as (ev1 & Hf1 & Hg1 & Hu1).
    destruct (scrape_amazon_search self term w) as [products w1].
    cbn [snd] in Hf1. destruct products as [|product more].
    + set (w2 := {| replies := replies w1;
                    trace := trace w1 ++ [Sleep 3.0 7.0] |}).
      assert (Hf2 : follows w1 w2 [Sleep 3.0 7.0]) by (split; reflexivity).
      destruct (IH w2) as (segments & Hf3 & Hseg & Hlen & Hall).
      exists ((ev1 ++ [Sleep 3.0 7.0])%list :: segments).
      cbn [List.concat List.length firstn].
      split; [exact (follows_trans _ _ _ _ _
                       (follows_trans _ _ _ _ _ Hf1 Hf2) Hf3)|].
      split.
      * constructor; [|exact Hseg]. split.
        -- rewrite gets_app. change (gets [Sleep 3.0 7.0]) with 0%nat. lia.
        -- apply requests_to_app; [exact Hu1 | repeat constructor].
      * split; [lia|]. intros Hnil. now rewrite (Hall Hnil).
    + exists [ev1]. cbn [List.concat List.length firstn fst snd app].
      rewrite app_nil_r. split; [exact Hf1|].
      split; [constructor; [split; [exact Hg1 | exact Hu1] | constructor]|].
      split; [lia | discriminate].
Qed.

(** X17: the fallback search goes through the search terms in order:
    what it adds to the trace splits into one stretch for each term it
    tried, each with at least one and at most three requests, all to the
    search URL of that term; when it returns the empty list, it tried
    every term. *)
Theorem scrape_with_fallback_requests self w :
  exists segments,
    follows w (snd (scrape_with_fallback self w)) (List.concat segments)
    /\ Forall2 (term_segment self)
               (firstn (List.length segments) (search_terms self)) segments
    /\ (List.length segments <= List.length (search_terms self))%nat
    /\ (fst (scrape_with_fallback self w) = [] ->
        List.length segments = List.length (search_terms self)).
Proof. apply scrape_fallback_loop_segments. Qed.

Lemma after_empty_last self pre q :
  forall w,
    after_empty self (pre ++ [q]) w
    = snd (human_delay 3.0 7.0
             (snd (scrape_amazon_search self q (after_empty self pre w)))).
Proof.
  induction pre as [|p pre IH]; intros w; [reflexivity|].
  cbn [app after_empty]. apply IH.
Qed.

(** X18: when every search term comes back empty, the wait of 3 to 7
    seconds is taken after the last term as well, just before the empty
    list is returned. *)
Theorem scrape_with_fallback_last_wait self w :
  search_terms self <> [] ->
  all_empty self (search_terms self) w ->
  exists events,
    trace (snd (scrape_with_fallback self w))
    = (events ++ [Sleep 3.0 7.0])%list.
Proof.
  intros Hne Hall. unfold scrape_with_fallback.
  rewrite <- (app_nil_r (search_terms self)).
  rewrite scrape_fallback_loop_skip by assumption.
  cbn [scrape_fallback_loop ret snd].
  destruct (exists_last Hne) as (pre & q & ->).
  rewrite after_empty_last. eexists. reflexivity.
Qed.

End SearchAccounting.

(** ** Request handler: errors and requests *)

Section HandlerAccounting.

Context `{Dom}.

Lemma dict_get_country_domains code :
  dict_get country_domains code = None
  <-> ~ In code ["US"; "UK"; "CA"; "IN"].
Proof.
  unfold country_domains. cbn [dict_get In].
  destruct (String.eqb_spec "US" code) as [|Hus];
    [split; [discriminate | intros Hn; elim Hn; auto]|].
  destruct (String.eqb_spec "UK" code) as [|Huk];
    [split; [discriminate | intros Hn; elim Hn; auto]|].
  destruct (String.eqb_spec "CA" code) as [|Hca];
    [split; [discriminate | intros Hn; elim Hn; auto]|].
  destruct (String.eqb_spec "IN" code) as [|Hin];
    [split; [discriminate | intros Hn; elim Hn; auto]|].
  split; [|reflexivity]. intros _ [|[|[|[|[]]]]]; contradiction.
Qed.

(** X19: for every country code other than US, UK, CA and IN the
    handler raises with status 500, and the world is as it was: no
    request is sent, no reply used up and no wait taken. *)
Theorem search_products_unlisted request w :
  ~ In (country request) ["US"; "UK"; "CA"; "IN"] ->
  exists detail,
    search_products request w = (inl (HTTPException 500 detail), w).
Proof.
  intros Hout. apply dict_get_country_domains in Hout.
  unfold search_products, search_products_try, bind. rewrite Hout.
  eexists. reflexivity.
Qed.

(** X20: for a country of the table the handler sends at least one and
    at most three requests, all of them to the search URL on that
    country's domain, and uses up one reply for each. *)
Theorem search_products_requests request domain w :
  dict_get country_domains (country request) = Some domain ->
  exists events,
    follows w (snd (search_products request w)) events
    /\ (1 <= gets events <= 3)%nat
    /\ requests_to (domain ++ "/s?k=" ++ query request ++ "&ref=sr_pg_1")
                   events.
Proof.
  intros Hdomain. unfold search_products, search_products_try, bind.
  rewrite Hdomain.
  pose proof (scrape_amazon_search_account
                {| base_url := domain;
                   search_terms := search_terms AmazonScraper_init |}
                (query request) w) as (events & Hf & Hg & Hu).
  destruct (scrape_amazon_search
              {| base_url := domain;
                 search_terms := search_terms AmazonScraper_init |}
              (query request) w) as [[|p ps] w'];
    unfold ret; cbn [fst snd] in *; exists events; auto.
Qed.

End HandlerAccounting.

(** ** Rendering: cards *)

Section Cards.

Lemma take_all n s : (String.length s <= n)%nat -> take n s = s.
Proof.
  revert n. induction s as [|c s IH]; intros n Hlen; [now destruct n|].
  destruct n as [|n]; [cbn in Hlen; lia|].
  cbn [take]. f_equal. apply IH. cbn in Hlen. lia.
Qed.

Lemma length_take n s : (String.length (take n s) <= n)%nat.
Proof.
  revert s. induction n as [|n IH]; intros s; [reflexivity|].
  destruct s as [|c s]; cbn [take String.length]; [lia|].
  specialize (IH s). lia.
Qed.

Lemma length_app_str s1 s2 :
  String.length (s1 ++ s2) = (String.length s1 + String.length s2)%nat.
Proof.
  induction s1 as [|c s1 IH]; [reflexivity|]. cbn. now rewrite IH.
Qed.

Lemma app_nil_r_str s : s ++ "" = s.
Proof. induction s as [|c s IH]; [reflexivity|]. cbn. now rewrite IH. Qed.

Lemma app_assoc_str s1 s2 s3 : s1 ++ (s2 ++ s3) = (s1 ++ s2) ++ s3.
Proof. induction s1 as [|c s1 IH]; [reflexivity|]. cbn. now rewrite IH. Qed.

(** X21: the heading of a card is the name itself when the name has at
    most 100 characters, and never has more than 103 characters. *)
Theorem card_title_bounded name :
  (String.length (card_title name) <= 103)%nat
  /\ ((String.length name <= 100)%nat -> card_title name = name).
Proof.
  unfold card_title. split.
  - rewrite length_app_str. pose proof (length_take 100 name) as Htake.
    destruct (100 <? String.length name)%nat; cbn [String.length]; lia.
  - intros Hshort. rewrite take_all by exact Hshort.
    replace (100 <? String.length name)%nat with false
      by (symmetry; apply Nat.ltb_ge; exact Hshort).
    apply app_nil_r_str.
Qed.

Lemma card_html_None product :
  card_html product = None <-> productName product = None.
Proof.
  unfold card_html. destruct (productName product); split; congruence.
Qed.

Lemma generate_cards_loop_acc products :
  forall cards,
    generate_cards_loop products cards
    = option_map (app cards) (generate_cards_loop products []).
Proof.
  induction products as [|product rest IH]; intros cards.
  - cbn. now rewrite app_nil_r.
  - cbn [generate_cards_loop]. destruct (card_html product) as [card|];
      [|reflexivity].
    rewrite (IH (cards ++ [card])%list), (IH ([] ++ [card])%list).
    destruct (generate_cards_loop rest []) as [more|]; [|reflexivity].
    cbn [option_map app]. now rewrite <- app_assoc.
Qed.

Lemma generate_cards_loop_None products :
  generate_cards_loop products [] = None
  <-> Exists (fun product => productName product = None) products.
Proof.
  induction products as [|product rest IH].
  - split; [discriminate | intros Hex; inversion Hex].
  - cbn [generate_cards_loop].
    destruct (card_html product) as [card|] eqn:Hcard.
    + rewrite generate_cards_loop_acc.
      destruct (generate_cards_loop rest []) as [more|] eqn:Hrest;
        cbn [option_map].
      * split; [discriminate|]. intros Hex.
        inversion Hex as [? ? Hnone | ? ? Hlater]; subst.
        -- apply card_html_None in Hnone. congruence.
        -- apply IH in Hlater. discriminate.
      * split; [|reflexivity]. intros _. apply Exists_cons_tl. now apply IH.
    + split; [|reflexivity]. intros _. apply Exists_cons_hd.
      now apply card_html_None.
Qed.

(** X22: rendering fails exactly when one of the records has no
    name. *)
Theorem generate_product_cards_fails products :
  generate_product_cards products = None
  <-> Exists (fun product => productName product = None) products.
Proof.
  rewrite <- generate_cards_loop_None. unfold generate_product_cards.
  destruct (generate_cards_loop products []); split; congruence.
Qed.

Lemma concat_app_str sep a b :
  a <> [] -> b <> [] ->
  String.concat sep (a ++ b)
  = String.concat sep a ++ sep ++ String.concat sep b.
Proof.
  intros Ha Hb. induction a as [|x a IH]; [now elim Ha|].
  destruct a as [|y a].
  - cbn [app String.concat]. destruct b; [now elim Hb | reflexivity].
  - change ((x :: y :: a) ++ b)%list with (x :: (y :: a) ++ b)%list.
    change (String.concat sep (x :: (y :: a) ++ b))
      with (x ++ sep ++ String.concat sep ((y :: a) ++ b)).
    rewrite IH by discriminate.
    change (String.concat sep (x :: y :: a))
      with (x ++ sep ++ String.concat sep (y :: a)).
    now rewrite <- !app_assoc_str.
Qed.

(** X23: the cards of two lists of records, joined by a line break, are
    the cards of the two lists put together. *)
Theorem generate_product_cards_app first second html1 html2 :
  first <> [] -> second <> [] ->
  generate_product_cards first = Some html1 ->
  generate_product_cards second = Some html2 ->
  generate_product_cards (first ++ second)
  = Some (html1 ++ newline ++ html2).
Proof.
  unfold generate_product_cards. intros Hne1 Hne2.
  assert (Happ : generate_cards_loop (first ++ second) []
                 = match generate_cards_loop first [] with
                   | Some cards =>
                       option_map (app cards) (generate_cards_loop second [])
                   | None => None
                   end).
  { clear. induction first as [|product rest IH]; cbn [app generate_cards_loop].
    - now destruct (generate_cards_loop second []).
    - destruct (card_html product) as [card|]; [|reflexivity].
      rewrite generate_cards_loop_acc, IH.
      rewrite (generate_cards_loop_acc rest [card]).
      destruct (generate_cards_loop rest []) as [c1|]; [|reflexivity].
      destruct (generate_cards_loop second []) as [c2|]; [|reflexivity].
      cbn [option_map app]. reflexivity. }
  rewrite Happ.
  destruct (generate_cards_loop first []) as [c1|] eqn:H1; [|discriminate].
  destruct (generate_cards_loop second []) as [c2|] eqn:H2; [|discriminate].
  intros [= <-] [= <-]. cbn [option_map]. f_equal.
  apply concat_app_str.
  - intros ->. destruct first as [|p rest]; [now elim Hne1|].
    cbn [generate_cards_loop] in H1. destruct (card_html p); [|discriminate].
    rewrite generate_cards_loop_acc in H1.
    destruct (generate_cards_loop rest []); discriminate.
  - intros ->. destruct second as [|p rest]; [now elim Hne2|].
    cbn [generate_cards_loop] in H2. destruct (card_html p); [|discriminate].
    rewrite generate_cards_loop_acc in H2.
    destruct (generate_cards_loop rest []); discriminate.
Qed.

End Cards.

Section CardsOfBatch.

Context `{Dom}.

(** X24: every batch that [parse_product_data] returns can be
    rendered: its records all have a name. *)
Theorem parse_product_data_renders self soup w :
  exists html,
    generate_product_cards (fst (parse_product_data self soup w)) = Some html.
Proof.
  destruct (generate_product_cards (fst (parse_product_data self soup w)))
    as [html|] eqn:Hcards; [now exists html|].
  exfalso. unfold generate_product_cards in Hcards.
  destruct (generate_cards_loop (fst (parse_product_data self soup w)) [])
    eqn:Hloop; [discriminate|].
  apply generate_cards_loop_None in Hloop. apply Exists_exists in Hloop.
  destruct Hloop as (product & Hin & Hnone).
  unfold parse_product_data in Hin.
  destruct (parse_selectors_result self soup product_selectors w)
    as (batch & Hrun & Hfrom). rewrite Hrun in Hin. cbn [fst] in Hin.
  destruct Hfrom as [-> | (selector & _ & ->)]; [inversion Hin|].
  pose proof (accepted_named self (firstn 20 (select soup selector))) as Hnamed.
  rewrite Forall_forall in Hnamed.
  destruct (Hnamed product Hin) as (name & Hname & _). congruence.
Qed.

End CardsOfBatch.

(** ** The further properties on documents *)

Section FurtherOnDocuments.

Import Fixture Shelf.

Lemma make_request_returns_200_witness :
  fst (make_request AmazonScraper_init "https://www.amazon.in/s?k=mug" 3
         (fresh [refused 503; ok one_result]))
  = Some {| status_code := 200; content := one_result |}
  /\ status_code {| status_code := 200; content := one_result |} = 200%Z.
Proof.
  split; [reflexivity|].
  apply (make_request_returns_200 AmazonScraper_init
           "https://www.amazon.in/s?k=mug" 3
           (fresh [refused 503; ok one_result])).
  reflexivity.
Defined.

Lemma find_text_by_selectors_result_witness :
  find_text_by_selectors mug name_selectors = Some "Mug"
  /\ truthy "Mug" = true
  /\ exists selector element,
       In selector name_selectors
       /\ select_one mug selector = Some element
       /\ get_text element = "Mug".
Proof.
  split; [reflexivity|].
  apply (proj1 (find_text_by_selectors_result mug name_selectors) "Mug").
  reflexivity.
Defined.

Lemma find_element_by_selectors_result_witness :
  find_element_by_selectors name_only link_selectors = None
  /\ Forall (fun selector => select_one name_only selector = None)
            link_selectors.
Proof.
  split; [reflexivity|].
  apply (proj2 (find_element_by_selectors_result name_only link_selectors)).
  reflexivity.
Defined.

Lemma extract_link_empty_or_absolute_witness :
  exists product,
    extract_product_info AmazonScraper_init mug = Some product
    /\ (link product = "" \/ startswith (link product) "http" = true).
Proof.
  eexists. split; [reflexivity|].
  apply (extract_link_empty_or_absolute AmazonScraper_init mug). reflexivity.
Defined.

Lemma extract_price_sentinel_or_amount_witness :
  exists product,
    extract_product_info AmazonScraper_init mug = Some product
    /\ (price product = "Price not available"
        \/ (truthy (price product) = true
            /\ strip (price product) = price product
            /\ startswith (price product) "$" = true)).
Proof.
  eexists. split; [reflexivity|].
  apply (extract_price_sentinel_or_amount AmazonScraper_init mug). reflexivity.
Defined.

Lemma scrape_amazon_search_fetch_failed_witness :
  Forall (fun reply => is_ok reply = false)
         (firstn 3 (replies (fresh [RequestException; refused 503;
                                    refused 429; ok one_result])))
  /\ fst (scrape_amazon_search AmazonScraper_init "mug"
            (fresh [RequestException; refused 503; refused 429;
                    ok one_result])) = [].
Proof.
  assert (Hbad : Forall (fun reply => is_ok reply = false)
                   (firstn 3 (replies (fresh [RequestException; refused 503;
                                              refused 429; ok one_result])))).
  { repeat constructor. }
  split; [exact Hbad|].
  exact (proj1 (scrape_amazon_search_fetch_failed AmazonScraper_init "mug"
                  (fresh [RequestException; refused 503; refused 429;
                          ok one_result]) Hbad)).
Defined.

Lemma scrape_with_fallback_last_wait_witness :
  exists events,
    trace (snd (scrape_with_fallback
                  {| base_url := "https://www.amazon.in";
                     search_terms := ["a"; "b"] |}
                  (fresh [ok no_result; ok no_result])))
    = (events ++ [Sleep 3.0 7.0])%list.
Proof.
  apply (scrape_with_fallback_last_wait
           {| base_url := "https://www.amazon.in"; search_terms := ["a"; "b"] |}
           (fresh [ok no_result; ok no_result])).
  - discriminate.
  - repeat split.
Defined.

Lemma search_products_requests_witness :
  dict_get country_domains "UK" = Some "https://www.amazon.co.uk"
  /\ exists events,
       follows (fresh [ok one_result])
         (snd (search_products {| country := "UK"; query := "mug" |}
                 (fresh [ok one_result]))) events
       /\ (1 <= gets events <= 3)%nat
       /\ requests_to "https://www.amazon.co.uk/s?k=mug&ref=sr_pg_1" events.
Proof.
  split; [reflexivity|].
  apply (search_products_requests
           {| country := "UK"; query := "mug" |}
           "https://www.amazon.co.uk" (fresh [ok one_result]) eq_refl).
Defined.

Lemma search_products_unlisted_witness :
  ~ In "us" ["US"; "UK"; "CA"; "IN"]
  /\ exists detail,
       search_products {| country := "us"; query := "mug" |}
         (fresh [ok one_result])
       = (inl (HTTPException 500 detail), fresh [ok one_result]).
Proof.
  assert (Hout : ~ In "us" ["US"; "UK"; "CA"; "IN"]).
  { intros [Hin | [Hin | [Hin | [Hin | []]]]]; discriminate Hin. }
  split; [exact Hout|].
  apply (search_products_unlisted {| country := "us"; query := "mug" |}
           (fresh [ok one_result]) Hout).
Defined.

Lemma card_title_bounded_witness :
  (String.length "Mug" <= 100)%nat /\ card_title "Mug" = "Mug".
Proof.
  split; [cbn; lia|].
  apply (proj2 (card_title_bounded "Mug")). cbn. lia.
Defined.

Lemma generate_product_cards_app_witness :
  exists html1 html2,
    generate_product_cards
      [{| productName := Some "Mug"; price := "$249"; link := "";
          image_url := "" |}] = Some html1
    /\ generate_product_cards
         [{| productName := Some "Cup"; price := "$99"; link := "";
             image_url := "" |}] = Some html2
    /\ generate_product_cards
         [{| productName := Some "Mug"; price := "$249"; link := "";
             image_url := "" |};
          {| productName := Some "Cup"; price := "$99"; link := "";
             image_url := "" |}]
       = Some (html1 ++ newline ++ html2).
Proof.
  eexists. eexists. split; [reflexivity|]. split; [reflexivity|].
  apply (generate_product_cards_app
           [{| productName := Some "Mug"; price := "$249"; link := "";
               image_url := "" |}]
           [{| productName := Some "Cup"; price := "$99"; link := "";
               image_url := "" |}]);
    [discriminate | discriminate | reflexivity | reflexivity].
Defined.

Lemma generate_product_cards_fails_witness :
  generate_product_cards
    [{| productName := None; price := "$249"; link := ""; image_url := "" |}]
  = None.
Proof.
  apply (proj2 (generate_product_cards_fails
                  [{| productName := None; price := "$249"; link := "";
                      image_url := "" |}])).
  constructor. reflexivity.
Defined.

End FurtherOnDocuments.
